(** * ts2md: metadata normalisation and report assembly

    A shallow embedding of [ts2md.py].  The script lists a directory, reads
    the metadata of every image (PIL + piexif) and video (exiftool), and
    writes one Markdown section per file.

    Conventions of the embedding.
    - A Python [str] is a Rocq [string], one [ascii] per character, so the
      text handled here is the part of Unicode below U+0100.  [bytes] values
      are Rocq strings as well, one [ascii] per byte.
    - A Python [dict] is an association list in insertion order, as CPython
      keeps it.
    - A call that may raise returns a [result]; code that fills [meta] while it
      may raise lives in the state-and-exception monad [M].
    - What the libraries and the operating system answer (PIL, piexif,
      pyheif, exiftool, whisper, [stat]) is input data of the model. *)

From Stdlib Require Import ZArith List String Ascii Bool Lia.
From Stdlib Require Import Floats DecimalString Permutation Sorted.
Import ListNotations.

Open Scope Z_scope.
Open Scope string_scope.

(** ** Python runtime *)

Module Py.

(** Exceptions, with the text [str(e)] gives (CPython's, for the two the
    script can raise itself).  [Exception msg] stands for whatever a library
    raised. *)
Inductive exn : Type :=
| ZeroDivisionError
| TypeError
| Exception (msg : string).

Definition str_exn (e : exn) : string :=
  match e with
  | ZeroDivisionError => "float division by zero"
  | TypeError => "bad operand type for unary -: 'NoneType'"
  | Exception msg => msg
  end.

Inductive result (A : Type) : Type :=
| Ok (a : A)
| Raise (e : exn).
Arguments Ok {A} a.
Arguments Raise {A} e.

Definition rbind {A B : Type} (r : result A) (k : A -> result B) : result B :=
  match r with
  | Ok a => k a
  | Raise e => Raise e
  end.

(** Values stored in [meta]: text, or an [int] (the image dimensions). *)
Inductive value : Type :=
| VStr (s : string)
| VInt (z : Z).

(** [str(z)] for an [int]. *)
Definition str_int (z : Z) : string := NilZero.string_of_int (Z.to_int z).

(** What an f-string prints for [{v}]. *)
Definition str_value (v : value) : string :=
  match v with
  | VStr s => s
  | VInt z => str_int z
  end.

(** Truth value of a stored value. *)
Definition truthy (v : value) : bool :=
  match v with
  | VStr s => negb (s =? "")
  | VInt z => negb (z =? 0)%Z
  end.

(** *** Dictionaries *)

Definition dict : Type := list (string * value).

Fixpoint dict_get (k : string) (d : dict) : option value :=
  match d with
  | [] => None
  | (k', v) :: d' => if k' =? k then Some v else dict_get k d'
  end.

(** [k in d] *)
Definition dict_has (k : string) (d : dict) : bool :=
  match dict_get k d with
  | Some _ => true
  | None => false
  end.

(** [d[k] = v]: an existing key keeps its place, a new one goes last. *)
Fixpoint dict_set (k : string) (v : value) (d : dict) : dict :=
  match d with
  | [] => [(k, v)]
  | (k', v') :: d' =>
      if k' =? k then (k, v) :: d' else (k', v') :: dict_set k v d'
  end.

(** *** Text *)

Definition code (c : ascii) : N := N_of_ascii c.

(** [c.isspace()] below U+0100. *)
Definition isspace (c : ascii) : bool :=
  let n := code c in
  ((9 <=? n) && (n <=? 13) || (28 <=? n) && (n <=? 32)
   || (n =? 133) || (n =? 160))%N.

(** The line boundaries of [str.splitlines] below U+0100, a lone one; the
    pair CR LF is handled by [splitlines]. *)
Definition is_linebreak (c : ascii) : bool :=
  let n := code c in
  ((10 <=? n) && (n <=? 13) || (28 <=? n) && (n <=? 30) || (n =? 133))%N.

Fixpoint lstrip (s : string) : string :=
  match s with
  | String c s' => if isspace c then lstrip s' else s
  | EmptyString => EmptyString
  end.

Fixpoint rstrip (s : string) : string :=
  match s with
  | String c s' =>
      match rstrip s' with
      | EmptyString => if isspace c then EmptyString else String c EmptyString
      | r => String c r
      end
  | EmptyString => EmptyString
  end.

(** [s.strip()] *)
Definition strip (s : string) : string := rstrip (lstrip s).

(** [s.splitlines()]; [cur] is the line being read, in reverse. *)
Fixpoint rev_string (acc s : string) : string :=
  match s with
  | EmptyString => acc
  | String c s' => rev_string (String c acc) s'
  end.

Fixpoint splitlines_from (cur s : string) : list string :=
  match s with
  | EmptyString =>
      match cur with
      | EmptyString => []
      | _ => [rev_string "" cur]
      end
  | String c s' =>
      if is_linebreak c then
        rev_string "" cur ::
          match s' with
          | String c' s'' =>
              if ((code c =? 13) && (code c' =? 10))%N
              then splitlines_from "" s''
              else splitlines_from "" s'
          | EmptyString => []
          end
      else splitlines_from (String c cur) s'
  end.

Definition splitlines (s : string) : list string := splitlines_from "" s.

(** [line.split(':', 1)] when [':' in line]: the text before the first colon
    and the text after it; [None] when the line has no colon. *)
Fixpoint split_colon (s : string) : option (string * string) :=
  match s with
  | EmptyString => None
  | String c s' =>
      if (c =? ":")%char then Some (EmptyString, s')
      else match split_colon s' with
           | Some (k, v) => Some (String c k, v)
           | None => None
           end
  end.

(** [c.lower()] below U+0100. *)
Definition lower_char (c : ascii) : ascii :=
  let n := code c in
  if ((65 <=? n) && (n <=? 90) || (192 <=? n) && (n <=? 214)
      || (216 <=? n) && (n <=? 222))%N
  then ascii_of_N (n + 32) else c.

Fixpoint lower (s : string) : string :=
  match s with
  | EmptyString => EmptyString
  | String c s' => String (lower_char c) (lower s')
  end.

(** [s.rfind(c)], counting from [i] at the head of [s]. *)
Fixpoint rfind (c : ascii) (s : string) (i : nat) : option nat :=
  match s with
  | EmptyString => None
  | String a s' =>
      match rfind c s' (S i) with
      | Some j => Some j
      | None => if (a =? c)%char then Some i else None
      end
  end.

(** [s[i:]] *)
Fixpoint drop (i : nat) (s : string) : string :=
  match i, s with
  | O, _ => s
  | S i', String _ s' => drop i' s'
  | S _, EmptyString => EmptyString
  end.

(** [PurePath.suffix] of a file name: the part from the last dot on, when
    that dot is neither the first nor the last character. *)
Definition suffix (name : string) : string :=
  match rfind "." name 0 with
  | Some i =>
      if (0 <? i)%nat && (i <? String.length name - 1)%nat
      then drop i name else ""
  | None => ""
  end.

(** [x in xs] for a collection of strings. *)
Definition mem (x : string) (xs : list string) : bool :=
  existsb (String.eqb x) xs.

(** *** Floats *)

(** [float(z)] for an [int]; exact below 2^53, which covers the 32-bit
    components of an EXIF rational. *)
Definition float_of_int (z : Z) : float :=
  SF2Prim (binary_normalize prec emax z 0 false).

(** [float(a) / float(b)]: Python raises when the divisor is zero, and
    [float(b)] is zero exactly when [b] is. *)
Definition float_div (a b : Z) : result float :=
  if (b =? 0)%Z then Raise ZeroDivisionError
  else Ok (float_of_int a / float_of_int b)%float.

(** [format(x, '.6f')]: the decimal expansion of [x] rounded to six places,
    ties to even, as CPython's correctly rounded conversion prints it. *)
Definition sign_text (neg : bool) : string := if neg then "-" else "".

Definition digits6 (n : Z) : string :=
  drop 1 (str_int (1000000 + n)).

Definition round_half_even (num den : Z) : Z :=
  let q := num / den in
  let r := num mod den in
  if (den <? 2 * r)%Z then q + 1
  else if (2 * r =? den)%Z && Z.odd q then q + 1
  else q.

Definition format_6f (x : float) : string :=
  match Prim2SF x with
  | S754_zero s => sign_text s ++ "0.000000"
  | S754_infinity s => sign_text s ++ "inf"
  | S754_nan => "nan"
  | S754_finite s m e =>
      let q :=
        if (0 <=? e)%Z then Z.pos m * 2 ^ e * 1000000
        else round_half_even (Z.pos m * 1000000) (2 ^ (- e)) in
      sign_text s ++ str_int (q / 1000000) ++ "." ++ digits6 (q mod 1000000)
  end.

End Py.
Import Py.

Notation "x <- c1 ;; c2" := (rbind c1 (fun x => c2))
  (at level 61, c1 at next level, right associativity).

(** ** The GPS converter *)

(** A [bytes] object, one [ascii] per byte. *)
Definition bytes : Type := string.

(** An EXIF rational is [(numerator, denominator)]; a coordinate is
    [((deg_num, deg_den), (min_num, min_den), (sec_num, sec_den))]. *)
Definition rational : Type := (Z * Z)%type.
Definition dms : Type := (rational * rational * rational)%type.

(** The inner function [to_deg] of [exif_gps_to_decimal]. *)
Definition to_deg (val : dms) : result float :=
  let '(d, m, s) := val in
  a <- float_div (fst d) (snd d) ;;
  b <- float_div (fst m) (snd m) ;;
  c <- float_div (fst s) (snd s) ;;
  Ok (a + b / 60 + c / 3600)%float.

(** [exif_gps_to_decimal(gps)]: [gps] is the sequence the caller passes. *)
Definition exif_gps_to_decimal (gps : list dms)
  : result (option float * option float) :=
  match gps with
  | [g0; g1] =>
      lat <- to_deg g0 ;;
      lon <- to_deg g1 ;;
      Ok (Some lat, Some lon)
  | _ => Ok (None, None)
  end.

(** Lines 73-77 of [extract_image_metadata]: the conversion and the
    hemisphere signs, for references already decoded to text. *)
Definition gps_decimal (lat_tuple lon_tuple : dms) (lat_ref lon_ref : string)
  : result (float * float) :=
  p <- exif_gps_to_decimal [lat_tuple; lon_tuple] ;;
  match p with
  | (Some lat, Some lon) =>
      let lat := if lat_ref =? "S" then (- lat)%float else lat in
      let lon := if lon_ref =? "W" then (- lon)%float else lon in
      Ok (lat, lon)
  | _ => Raise TypeError
  end.

(** ** Filling [meta] under [try] *)

(** A computation that reads and writes [meta] and may raise; the dictionary
    built so far survives the exception, as the [except] clause sees it. *)
Definition M (A : Type) : Type := dict -> result A * dict.

Definition ret {A : Type} (a : A) : M A := fun meta => (Ok a, meta).

Definition bind {A B : Type} (c : M A) (k : A -> M B) : M B :=
  fun meta =>
    match c meta with
    | (Ok a, meta') => k a meta'
    | (Raise e, meta') => (Raise e, meta')
    end.

Definition lift {A : Type} (r : result A) : M A := fun meta => (r, meta).

Definition setitem (k : string) (v : value) : M unit :=
  fun meta => (Ok tt, dict_set k v meta).

Notation "x <~ c1 ;; c2" := (bind c1 (fun x => c2))
  (at level 61, c1 at next level, right associativity).
Notation "c1 ;;; c2" := (bind c1 (fun _ => c2))
  (at level 61, right associativity).

(** ** Image files *)

(** The GPS IFD, as far as the script reads it. *)
Record gps_ifd : Type := {
  GPSLatitudeRef : option bytes;
  GPSLatitude : option dms;
  GPSLongitudeRef : option bytes;
  GPSLongitude : option dms
}.

(** What [piexif.load] returns, as far as the script reads it. *)
Record exif_dict : Type := {
  DateTimeOriginal : option bytes;
  GPS : gps_ifd;
  Make : option bytes;
  Model : option bytes;
  ImageDescription : option bytes
}.

(** An opened PIL image: its size, [Image.MIME.get(img.format)],
    [img.info.get('exif')] and what [piexif.load] does with the latter. *)
Record pil_image : Type := {
  width : Z;
  height : Z;
  mime : option string;
  info_exif : option bytes;
  piexif_load : result exif_dict
}.

(** What reading one file as an image gives: [Image.open], the size
    [pyheif.read] reports, and [stat().st_size]. *)
Record image_source : Type := {
  image_open : result pil_image;
  pyheif_size : result (Z * Z);
  st_size : result Z
}.

(** A value under [if x:] for an optional [bytes]. *)
Definition nonempty (o : option bytes) : option bytes :=
  match o with
  | Some b => if b =? "" then None else Some b
  | None => None
  end.

(** [d.get(k, default)] *)
Definition get_default {A : Type} (o : option A) (d : A) : A :=
  match o with
  | Some a => a
  | None => d
  end.

Section Image.

(** The text codec: [b.decode()] and [b.decode(errors='ignore')]. *)
Variable decode : bytes -> result string.
Variable decode_ignore : bytes -> string.

(** The module flag set by [import pyheif]. *)
Variable HAS_PYHEIF : bool.

(** Lines 67-78.  [gps and LAT in gps and LON in gps] holds exactly when
    both coordinates are in the IFD. *)
Definition gps_block (gps : gps_ifd) : M unit :=
  match GPSLatitude gps, GPSLongitude gps with
  | Some lat_tuple, Some lon_tuple =>
      lat_ref <~ lift (decode (get_default (GPSLatitudeRef gps) "N")) ;;
      lon_ref <~ lift (decode (get_default (GPSLongitudeRef gps) "E")) ;;
      p <~ lift (gps_decimal lat_tuple lon_tuple lat_ref lon_ref) ;;
      setitem "GPS" (VStr (format_6f (fst p) ++ ", " ++ format_6f (snd p)))
  | _, _ => ret tt
  end.

(** [if b: meta[k] = b.decode(errors='ignore')] *)
Definition set_decoded (k : string) (o : option bytes) : M unit :=
  match nonempty o with
  | Some b => setitem k (VStr (decode_ignore b))
  | None => ret tt
  end.

(** Lines 61-89: the fields read from EXIF. *)
Definition exif_block (exif : exif_dict) : M unit :=
  match nonempty (DateTimeOriginal exif) with
  | Some dt => s <~ lift (decode dt) ;; setitem "Creation Date" (VStr s)
  | None => ret tt
  end ;;;
  gps_block (GPS exif) ;;;
  set_decoded "Make" (Make exif) ;;;
  set_decoded "Model" (Model exif) ;;;
  set_decoded "Description" (ImageDescription exif).

Definition image_size (w h : Z) : value :=
  VStr (str_int w ++ "x" ++ str_int h).

(** Lines 90-95: the fields read from the file and the decoder. *)
Definition file_block (name : string) (src : image_source) (img : pil_image)
  : M unit :=
  setitem "File Name" (VStr name) ;;;
  size <~ lift (st_size src) ;;
  setitem "File Size" (VStr (str_int (size / 1024) ++ " KB")) ;;;
  setitem "MIME Type" (VStr (get_default (mime img) "unknown")) ;;;
  setitem "Image Width" (VInt (width img)) ;;;
  setitem "Image Height" (VInt (height img)).

(** The body of the [try] of [extract_image_metadata]. *)
Definition image_try (name : string) (src : image_source) : M unit :=
  if lower (suffix name) =? ".heic" then
    if HAS_PYHEIF then
      size <~ lift (pyheif_size src) ;;
      setitem "Image Size" (image_size (fst size) (snd size))
    else
      setitem "error"
        (VStr "pyheif not installed; cannot extract HEIC metadata.")
  else
    img <~ lift (image_open src) ;;
    setitem "Image Size" (image_size (width img) (height img)) ;;;
    match nonempty (info_exif img) with
    | Some _ => exif <~ lift (piexif_load img) ;; exif_block exif
    | None => ret tt
    end ;;;
    file_block name src img.

Definition extract_image_metadata (name : string) (src : image_source)
  : dict :=
  match image_try name src [] with
  | (Ok _, meta) => meta
  | (Raise e, meta) => dict_set "error" (VStr (str_exn e)) meta
  end.

End Image.

(** ** Video files *)

(** One turn of the loop over the probe's output lines. *)
Definition parse_line (meta : dict) (line : string) : dict :=
  match split_colon line with
  | Some (key, val) => dict_set (strip key) (VStr (strip val)) meta
  | None => meta
  end.

(** [a or b] on the results of [meta.get]. *)
Definition py_or (a b : option value) : option value :=
  match a with
  | Some v => if truthy v then a else b
  | None => b
  end.

(** The loop over [result.stdout.splitlines()], from an empty [meta]. *)
Definition parse_lines (lines : list string) : dict :=
  fold_left parse_line lines [].

(** Lines 134-135: the preferred description, stored under ['Description']. *)
Definition set_description (meta : dict) : dict :=
  let desc :=
    py_or (py_or (py_or (dict_get "Description" meta)
                        (dict_get "UserComment" meta))
                 (dict_get "XPComment" meta))
          (dict_get "Comment" meta) in
  dict_set "Description"
    (match desc with
     | Some v => if truthy v then v else VStr ""
     | None => VStr ""
     end) meta.

(** [probe] is what [subprocess.run] did: the captured standard output, or
    the exception it raised. *)
Definition extract_video_metadata (probe : result string) : dict :=
  match probe with
  | Ok stdout => set_description (parse_lines (splitlines stdout))
  | Raise e => dict_set "error" (VStr (str_exn e)) []
  end.

(** ** The report *)

Definition nl : string := String "010" "".

Definition VIDEO_EXTENSIONS : list string :=
  [".mp4"; ".mov"; ".avi"; ".mkv"; ".flv"; ".wmv"].

Definition IMAGE_EXTENSIONS : list string :=
  [".jpg"; ".jpeg"; ".png"; ".heic"; ".tiff"; ".bmp"; ".gif"].

(** Both take the path; only its last component matters. *)
Definition is_video_file (name : string) : bool :=
  mem (lower (suffix name)) VIDEO_EXTENSIONS.

Definition is_image_file (name : string) : bool :=
  mem (lower (suffix name)) IMAGE_EXTENSIONS.

(** The [fields] list of the video branch: [(key, label)]. *)
Definition video_fields : list (string * string) :=
  [ ("Creation Date", "Creation Date");
    ("Description", "Description");
    ("Duration", "Video Length");
    ("Comment", "Video Description");
    ("GPS", "GPS");
    ("Make", "Make");
    ("Model", "Model");
    ("MIME Type", "MIME Type");
    ("File Name", "File Name");
    ("File Size", "File Size");
    ("Image Width", "Image Width");
    ("Image Height", "Image Height") ].

(** The [fields] list of the image branch. *)
Definition image_fields : list (string * string) :=
  [ ("Creation Date", "Creation Date");
    ("Description", "Description");
    ("GPS", "GPS");
    ("Make", "Make");
    ("Model", "Model");
    ("MIME Type", "MIME Type");
    ("File Name", "File Name");
    ("File Size", "File Size");
    ("Image Width", "Image Width");
    ("Image Height", "Image Height") ].

Definition bullet (label text : string) : string :=
  "- " ++ label ++ ": " ++ text ++ nl.

(** The body of [for key, label in fields]: what one field writes. *)
Definition field_lines (meta : dict) (f : string * string) : list string :=
  let (key, label) := f in
  if key =? "Description" then
    match dict_get key meta with
    | Some v =>
        if truthy v then [bullet label (str_value v)]
        else [bullet label "Not found"]
    | None => [bullet label "Not found"]
    end
  else
    match dict_get key meta with
    | Some v => [bullet label (str_value v)]
    | None => []
    end.

(** [any(key in meta for key, _ in fields)] *)
Definition any_field (fields : list (string * string)) (meta : dict) : bool :=
  existsb (fun f => dict_has (fst f) meta) fields.

(** The lines written between the [**Metadata:**] label and the end of the
    list, in the order written. *)
Definition no_metadata_line : string := "- No metadata found" ++ nl.

Definition metadata_lines (fields : list (string * string)) (meta : dict)
  : list string :=
  (flat_map (field_lines meta) fields ++
   if any_field fields meta then [] else [no_metadata_line])%list.

(** A directory entry with everything the run learns about it: what the
    probe, the image decoder and the transcriber answer for it. *)
Record media_file : Type := {
  name : string;
  is_file : bool;
  probe : result string;
  image : image_source;
  transcript : result string
}.

(** [sorted(files)].  The paths share their directory, so comparing them is
    comparing the names, character by character; [sorted] is stable and
    uses [<] only. *)
Definition path_lt (f g : media_file) : bool := String.ltb (name f) (name g).

Fixpoint insert_sorted (f : media_file) (l : list media_file)
  : list media_file :=
  match l with
  | [] => [f]
  | g :: l' => if path_lt g f then g :: insert_sorted f l' else f :: g :: l'
  end.

Definition sorted (files : list media_file) : list media_file :=
  fold_right insert_sorted [] files.

(** [next((f for f in files if p(f)), None)], as a list of at most one. *)
Definition first_where (p : media_file -> bool) (files : list media_file)
  : list media_file :=
  match find p files with
  | Some f => [f]
  | None => []
  end.

(** The files of the listing that the run keeps. *)
Definition media_files (listing : list media_file) : list media_file :=
  filter (fun f => is_file f &&
                   (is_video_file (name f) || is_image_file (name f)))
         listing.

(** Debug mode keeps the first video and the first image. *)
Definition debug_files (files : list media_file) : list media_file :=
  (first_where (fun f => is_video_file (name f)) files ++
   first_where (fun f => is_image_file (name f)) files)%list.

(** The fixed texts of a section. *)
Definition heading (f : media_file) : string := "## " ++ name f ++ nl ++ nl.
Definition metadata_label : string := "**Metadata:**" ++ nl.
Definition transcription_label : string :=
  nl ++ "**Transcription:**" ++ nl ++ nl.
Definition notes_line : string :=
  nl ++ "**Notes:** _(add your notes here)_" ++ nl ++ nl.

(** [transcribe_audio(model, file_path)]: the text whisper gives, or the
    exception it raises. *)
Definition transcribe_audio (f : media_file) : result string := transcript f.

Section Report.

Variable decode : bytes -> result string.
Variable decode_ignore : bytes -> string.
Variable HAS_PYHEIF : bool.

(** What the loop body writes for one file, in order, and the exception
    that ended it, if any: only [transcribe_audio] can raise there. *)
Definition section (f : media_file) : list string * option exn :=
  if is_video_file (name f) then
    let meta := extract_video_metadata (probe f) in
    let written :=
      ([heading f; metadata_label] ++ metadata_lines video_fields meta)%list in
    match transcribe_audio f with
    | Ok text =>
        let body : string := text ++ nl ++ nl in
        ((written ++ [transcription_label; body])%list, None)
    | Raise e => (written, Some e)
    end
  else if is_image_file (name f) then
    let meta :=
      extract_image_metadata decode decode_ignore HAS_PYHEIF
        (name f) (image f) in
    (([heading f; metadata_label] ++ metadata_lines image_fields meta ++
      [notes_line])%list, None)
  else ([heading f], None).

(** [for file in sorted(files)]: the writes, until an exception leaves the
    loop. *)
Fixpoint write_sections (files : list media_file)
  : list string * option exn :=
  match files with
  | [] => ([], None)
  | f :: rest =>
      match section f with
      | (out, Some e) => (out, Some e)
      | (out, None) =>
          let (out', r) := write_sections rest in ((out ++ out')%list, r)
      end
  end.

(** [main()], from the directory listing on.  [None]: the run returned
    before opening the output file.  Otherwise the text written to it, and
    the exception that ended the run, if any.  Loading the whisper model is
    taken to succeed, and what debug mode prints is left out; the files it
    keeps are not. *)
Definition main (input_is_dir debug : bool) (listing : list media_file)
  : option (string * option exn) :=
  if negb input_is_dir then None
  else
    let files := media_files listing in
    match files with
    | [] => None
    | _ =>
        let files := if debug then debug_files files else files in
        let (out, r) := write_sections (sorted files) in
        Some (String.concat "" out, r)
    end.

End Report.

(** ** The specification's reading of the rules *)

(** "decimal = deg + min/60 + sec/3600", each a numerator over a
    denominator. *)
Definition decimal_degrees (val : dms) : float :=
  let '((dn, dd), (mn, md), (sn, sd)) := val in
  (float_of_int dn / float_of_int dd
   + float_of_int mn / float_of_int md / 60
   + float_of_int sn / float_of_int sd / 3600)%float.

(** "multiply by -1 if the reference is [south]" *)
Definition hemisphere (ref south : string) (x : float) : float :=
  if ref =? south then (- x)%float else x.

Definition zero_denominator (val : dms) : bool :=
  let '((_, dd), (_, md), (_, sd)) := val in
  (dd =? 0)%Z || (md =? 0)%Z || (sd =? 0)%Z.

(** An empty value: the empty string (or, for a number, zero). *)
Definition is_blank (v : value) : bool :=
  match v with
  | VStr EmptyString => true
  | VInt Z0 => true
  | _ => false
  end.

(** "first non-empty wins" *)
Fixpoint first_nonempty (vs : list (option value)) : option value :=
  match vs with
  | [] => None
  | Some v :: rest => if is_blank v then first_nonempty rest else Some v
  | None :: rest => first_nonempty rest
  end.

(** "first present wins" *)
Fixpoint first_present (keys : list string) (raw : dict) : option value :=
  match keys with
  | [] => None
  | k :: rest =>
      match dict_get k raw with
      | Some v => Some v
      | None => first_present rest raw
      end
  end.

(** The six date tags asked of the probe, by tag name and by the name the
    probe prints for each. *)
Definition date_tags : list string :=
  ["CreateDate"; "CreationDate"; "ModifyDate"; "TrackCreateDate";
   "MediaCreateDate"; "FileModifyDate"].

Definition date_labels : list string :=
  ["Create Date"; "Creation Date"; "Modify Date"; "Track Create Date";
   "Media Create Date"; "File Modification Date/Time"].

(** The four description tags, in order of preference. *)
Definition description_choice (raw : dict) : option value :=
  first_nonempty
    [dict_get "Description" raw; dict_get "UserComment" raw;
     dict_get "XPComment" raw; dict_get "Comment" raw].

(** The value the probe printed for [key]: the trimmed text after the colon
    of the last line whose trimmed text before it is [key]. *)
Fixpoint printed_value (key : string) (lines : list string) : option string :=
  match lines with
  | [] => None
  | line :: rest =>
      match printed_value key rest with
      | Some v => Some v
      | None =>
          match split_colon line with
          | Some (k, v) => if strip k =? key then Some (strip v) else None
          | None => None
          end
      end
  end.

(** The capture time the image branch stores, when decoding it succeeds. *)
Definition capture_time (decode : bytes -> result string) (exif : exif_dict)
  : result (option string) :=
  match nonempty (DateTimeOriginal exif) with
  | Some dt => s <- decode dt ;; Ok (Some s)
  | None => Ok None
  end.

(** Names in the order [sorted] must give: [f] does not come after [g]. *)
Definition path_le (f g : media_file) : Prop :=
  String.leb (name f) (name g) = true.

(** ** The report as the specification words it *)

(** The line feed that ends a written line. *)
Definition LF : string := String (ascii_of_nat 10) EmptyString.

(** "- {Label}: {value}" *)
Definition quoted_bullet (label text : string) : string :=
  "- " ++ label ++ ": " ++ text ++ LF.

Definition quoted_no_metadata : string := "- No metadata found" ++ LF.
Definition quoted_metadata_label : string := "**Metadata:**" ++ LF.
Definition quoted_heading (name : string) : string :=
  "## " ++ name ++ LF ++ LF.
Definition quoted_transcription_label : string :=
  LF ++ "**Transcription:**" ++ LF ++ LF.
Definition quoted_notes : string :=
  LF ++ "**Notes:** _(add your notes here)_" ++ LF ++ LF.

(** The canonical field list of a kind, in its declared order, each field
    with the label it is shown under. *)
Definition declared_fields (video : bool) : list (string * string) :=
  if video then
    [ ("Creation Date", "Creation Date"); ("Description", "Description");
      ("Duration", "Video Length"); ("Comment", "Video Description");
      ("GPS", "GPS"); ("Make", "Make"); ("Model", "Model");
      ("MIME Type", "MIME Type"); ("File Name", "File Name");
      ("File Size", "File Size"); ("Image Width", "Image Width");
      ("Image Height", "Image Height") ]
  else
    [ ("Creation Date", "Creation Date"); ("Description", "Description");
      ("GPS", "GPS"); ("Make", "Make"); ("Model", "Model");
      ("MIME Type", "MIME Type"); ("File Name", "File Name");
      ("File Size", "File Size"); ("Image Width", "Image Width");
      ("Image Height", "Image Height") ].

(** What the Description bullet shows. *)
Definition description_text (meta : dict) : string :=
  match dict_get "Description" meta with
  | Some v => if is_blank v then "Not found" else str_value v
  | None => "Not found"
  end.

(** The bullet of one field: Description always has one; another field has
    one when it is in [meta]. *)
Definition declared_bullet (meta : dict) (f : string * string)
  : list string :=
  if fst f =? "Description" then [quoted_bullet (snd f) (description_text meta)]
  else
    match dict_get (fst f) meta with
    | Some v => [quoted_bullet (snd f) (str_value v)]
    | None => []
    end.

(** The bullets of a field list, in the order of the list. *)
Definition declared_bullets (meta : dict) (fields : list (string * string))
  : list string :=
  flat_map (declared_bullet meta) fields.

(** No field of the list is in [meta]. *)
Definition none_declared (fields : list (string * string)) (meta : dict)
  : bool :=
  forallb (fun f => negb (dict_has (fst f) meta)) fields.

(** The metadata block of a kind. *)
Definition declared_block (video : bool) (meta : dict) : list string :=
  (declared_bullets meta (declared_fields video) ++
   if none_declared (declared_fields video) meta
   then [quoted_no_metadata] else [])%list.

(** What follows the block: the transcription of a video, as far as the
    transcriber got, or the notes line of an image. *)
Definition declared_closing (video : bool) (spoken : result string)
  : list string :=
  if video then
    match spoken with
    | Ok text => [quoted_transcription_label; text ++ LF ++ LF]
    | Raise _ => []
    end
  else [quoted_notes].

(** The section of a file: heading, label, block, closing. *)
Definition declared_section (video : bool) (name : string) (meta : dict)
    (spoken : result string) : list string :=
  (quoted_heading name :: quoted_metadata_label :: declared_block video meta
   ++ declared_closing video spoken)%list.

(** ** Vocabulary for the properties of the readers *)

(** The metadata the run reads for a file, by its kind. *)
Definition metadata_of (decode : bytes -> result string)
    (decode_ignore : bytes -> string) (has_pyheif : bool) (f : media_file)
  : dict :=
  if is_video_file (name f) then extract_video_metadata (probe f)
  else extract_image_metadata decode decode_ignore has_pyheif
         (name f) (image f).

(** Every character of the text passes the test. *)
Fixpoint all_chars (p : ascii -> bool) (s : string) : bool :=
  match s with
  | EmptyString => true
  | String c s' => p c && all_chars p s'
  end.

(** The text has no colon. *)
Definition no_colon (s : string) : bool :=
  all_chars (fun c => negb (c =? ":")%char) s.

(** The text has no line boundary. *)
Definition no_linebreak (s : string) : bool :=
  all_chars (fun c => negb (is_linebreak c)) s.

(** Text as the video reader stores it: trimmed, on one line. *)
Definition clean_text (s : string) : Prop :=
  strip s = s /\ no_linebreak s = true.

(** An entry as the video reader stores it: a key without a colon and a
    text value, both clean. *)
Definition clean_entry (e : string * value) : Prop :=
  clean_text (fst e) /\ no_colon (fst e) = true
  /\ exists s : string, snd e = VStr s /\ clean_text s.

(** The keys of a dictionary, in its order. *)
Definition keys (d : dict) : list string := map fst d.


(** The entry is a regular file with a video or an image extension. *)
Definition is_media (f : media_file) : bool :=
  is_file f && (is_video_file (name f) || is_image_file (name f)).

(** ** Sample inputs *)

Module Sample.

(** The codec on 7-bit text, where every Python codec agrees; a byte above
    0x7f is refused, or dropped under [errors='ignore']. *)
Fixpoint seven_bit (b : bytes) : bool :=
  match b with
  | EmptyString => true
  | String c b' => (code c <? 128)%N && seven_bit b'
  end.

Definition decode (b : bytes) : result string :=
  if seven_bit b then Ok b
  else Raise (Exception "codec can't decode byte: ordinal not in range(128)").

Fixpoint decode_ignore (b : bytes) : string :=
  match b with
  | EmptyString => EmptyString
  | String c b' =>
      if (code c <? 128)%N then String c (decode_ignore b')
      else decode_ignore b'
  end.

Definition lat : dms := ((1, 1), (30, 1), (0, 1)).
Definition lon : dms := ((2, 1), (15, 1), (0, 1)).
Definition lat_zero : dms := ((1, 1), (30, 0), (0, 1)).

Definition no_gps : gps_ifd :=
  {| GPSLatitudeRef := None; GPSLatitude := None;
     GPSLongitudeRef := None; GPSLongitude := None |}.

Definition gps_no_refs : gps_ifd :=
  {| GPSLatitudeRef := None; GPSLatitude := Some lat;
     GPSLongitudeRef := None; GPSLongitude := Some lon |}.

Definition gps_zero : gps_ifd :=
  {| GPSLatitudeRef := Some "N"; GPSLatitude := Some lat_zero;
     GPSLongitudeRef := Some "E"; GPSLongitude := Some lon |}.

Definition exif_with (g : gps_ifd) (make : option bytes) : exif_dict :=
  {| DateTimeOriginal := Some "2021:05:04 10:11:12"; GPS := g;
     Make := make; Model := Some "X100"; ImageDescription := None |}.

Definition photo (load : result exif_dict) : image_source :=
  {| image_open :=
       Ok {| width := 640; height := 480; mime := Some "image/jpeg";
             info_exif := Some "Exif"; piexif_load := load |};
     pyheif_size := Raise (Exception "not a HEIF file");
     st_size := Ok 204800 |}.

Definition plain (mime_type : string) : image_source :=
  {| image_open :=
       Ok {| width := 8; height := 4; mime := Some mime_type;
             info_exif := None;
             piexif_load := Raise (Exception "no EXIF") |};
     pyheif_size := Raise (Exception "not a HEIF file");
     st_size := Ok 1500 |}.

Definition unreadable : image_source :=
  {| image_open := Raise (Exception "cannot identify image file");
     pyheif_size := Raise (Exception "not a HEIF file");
     st_size := Ok 0 |}.

Definition entry (n : string) (p : result string) (i : image_source)
  : media_file :=
  {| name := n; is_file := true; probe := p; image := i;
     transcript := Ok "hello" |}.

(** Probe outputs: two date lines by tag name; two date lines as exiftool
    prints them; a Make line with nothing after the colon. *)
Definition dates_by_tag : string :=
  "CreateDate: 2020:01:01 10:00:00" ++ nl ++
  "ModifyDate: 2021:02:02 11:00:00" ++ nl.

Definition dates_by_label : string :=
  "Create Date                     : 2020:01:01 10:00:00" ++ nl ++
  "Creation Date                   : 2019:12:31 23:00:00" ++ nl.

Definition empty_make : string :=
  "Make                            :" ++ nl.

(** An empty Description with a user comment and a comment; fields printed
    in an order of the probe's own. *)
Definition described : string :=
  "Description:" ++ nl ++
  "UserComment: hello" ++ nl ++
  "Comment: other" ++ nl.

Definition shuffled : string :=
  "Model: X100" ++ nl ++
  "Make: Canon" ++ nl ++
  "Duration: 0:01:05" ++ nl ++
  "Creation Date: 2020:01:01 10:00:00" ++ nl.

Definition no_exiftool : result string :=
  Raise (Exception "[Errno 2] No such file or directory: 'exiftool'").

Definition listing : list media_file :=
  [ entry "b.jpg" no_exiftool (plain "image/jpeg");
    entry "a.mp4" no_exiftool unreadable;
    entry "c.png" no_exiftool (plain "image/png") ].

End Sample.

(** * Properties *)

(** ** Dictionaries *)

Lemma dict_get_set_eq (k : string) (v : value) (d : dict) :
  dict_get k (dict_set k v d) = Some v.
Proof.
  induction d as [|[k' v'] d IH]; simpl.
  - now rewrite String.eqb_refl.
  - destruct (k' =? k) eqn:E; simpl.
    + now rewrite String.eqb_refl.
    + now rewrite E.
Qed.

Lemma dict_get_set_ne (k k' : string) (v : value) (d : dict) :
  k <> k' -> dict_get k (dict_set k' v d) = dict_get k d.
Proof.
  intros Hne. induction d as [|[k0 v0] d IH]; simpl.
  - destruct (k' =? k) eqn:E; [|reflexivity].
    apply String.eqb_eq in E. congruence.
  - destruct (k0 =? k') eqn:E; simpl.
    + apply String.eqb_eq in E. subst k0.
      destruct (k' =? k) eqn:E'; [|reflexivity].
      apply String.eqb_eq in E'. congruence.
    + destruct (k0 =? k); [reflexivity | exact IH].
Qed.

(** ** The GPS converter *)

Lemma to_deg_nonzero (val : dms) :
  zero_denominator val = false -> to_deg val = Ok (decimal_degrees val).
Proof.
  destruct val as [[[dn dd] [mn md]] [sn sd]]. simpl.
  intros H. apply orb_false_elim in H as [H Hs].
  apply orb_false_elim in H as [Hd Hm].
  unfold float_div. now rewrite Hd, Hm, Hs.
Qed.

Lemma to_deg_zero (val : dms) :
  zero_denominator val = true -> to_deg val = Raise ZeroDivisionError.
Proof.
  destruct val as [[[dn dd] [mn md]] [sn sd]]. simpl. unfold float_div.
  destruct (dd =? 0)%Z; [reflexivity|].
  destruct (md =? 0)%Z; [reflexivity|].
  destruct (sd =? 0)%Z; [reflexivity|discriminate].
Qed.

Lemma to_deg_cases (val : dms) :
  to_deg val =
  if zero_denominator val then Raise ZeroDivisionError
  else Ok (decimal_degrees val).
Proof.
  destruct (zero_denominator val) eqn:E;
    [now apply to_deg_zero | now apply to_deg_nonzero].
Qed.

(** C1.  The converter computes deg + min/60 + sec/3600 on each coordinate
    and negates the latitude for reference S and the longitude for
    reference W.  On the coordinates 1 deg 30' 0'' and 2 deg 15' 0'' it
    gives (1.5, 2.25) for N and E, (-1.5, 2.25) for S and E, (1.5, -2.25)
    for N and W, and the image reader stores "1.500000, 2.250000". *)
Theorem gps_converter :
  (forall (lat lon : dms) (lat_ref lon_ref : string),
      zero_denominator lat = false ->
      zero_denominator lon = false ->
      gps_decimal lat lon lat_ref lon_ref =
      Ok (hemisphere lat_ref "S" (decimal_degrees lat),
          hemisphere lon_ref "W" (decimal_degrees lon)))
  /\ gps_decimal Sample.lat Sample.lon "N" "E" = Ok (1.5, 2.25)%float
  /\ gps_decimal Sample.lat Sample.lon "S" "E" = Ok (-1.5, 2.25)%float
  /\ gps_decimal Sample.lat Sample.lon "N" "W" = Ok (1.5, -2.25)%float
  /\ dict_get "GPS"
       (extract_image_metadata Sample.decode Sample.decode_ignore true "b.jpg"
          (Sample.photo
             (Ok (Sample.exif_with Sample.gps_no_refs (Some "Canon")))))
     = Some (VStr "1.500000, 2.250000").
Proof.
  split; [|repeat split; vm_compute; reflexivity].
  intros lat lon lat_ref lon_ref Hlat Hlon.
  unfold gps_decimal, exif_gps_to_decimal.
  rewrite (to_deg_nonzero lat Hlat), (to_deg_nonzero lon Hlon).
  reflexivity.
Qed.

Lemma gps_converter_witness :
  gps_decimal Sample.lat Sample.lon "S" "W" =
  Ok (hemisphere "S" "S" (decimal_degrees Sample.lat),
      hemisphere "W" "W" (decimal_degrees Sample.lon)).
Proof. apply (proj1 gps_converter); reflexivity. Defined.

(** ** Reading an image *)

Section ImageFacts.

Variable decode : bytes -> result string.
Variable decode_ignore : bytes -> string.
Variable has_pyheif : bool.

(** The [except] clause: the dictionary filled so far, plus ['error']. *)
Lemma extract_raise (name : string) (src : image_source) (e : exn)
    (meta : dict) :
  image_try decode decode_ignore has_pyheif name src [] = (Raise e, meta) ->
  extract_image_metadata decode decode_ignore has_pyheif name src =
  dict_set "error" (VStr (str_exn e)) meta.
Proof. unfold extract_image_metadata. now intros ->. Qed.

(** A file that is not HEIC and that PIL opens: the state after line 58. *)
Lemma image_try_opened (name : string) (src : image_source)
    (img : pil_image) :
  (lower (suffix name) =? ".heic") = false ->
  image_open src = Ok img ->
  image_try decode decode_ignore has_pyheif name src [] =
  (match nonempty (info_exif img) with
   | Some _ =>
       exif <~ lift (piexif_load img) ;;
       exif_block decode decode_ignore exif
   | None => ret tt
   end ;;; file_block name src img)
    [("Image Size", image_size (width img) (height img))].
Proof.
  intros Hs Ho. unfold image_try. rewrite Hs.
  unfold bind at 1. unfold lift at 1. rewrite Ho.
  unfold bind at 1. reflexivity.
Qed.

(** The capture-time step of [exif_block], by its outcome. *)
Lemma capture_step (exif : exif_dict) (created : option string)
    (k : M unit) (meta : dict) :
  capture_time decode exif = Ok created ->
  (match nonempty (DateTimeOriginal exif) with
   | Some dt => s <~ lift (decode dt) ;; setitem "Creation Date" (VStr s)
   | None => ret tt
   end ;;; k) meta =
  k (match created with
     | Some s => dict_set "Creation Date" (VStr s) meta
     | None => meta
     end).
Proof.
  unfold capture_time. destruct (nonempty (DateTimeOriginal exif)) as [dt|].
  - destruct (decode dt) as [s|e] eqn:E; simpl; [|discriminate].
    intros [= <-]. reflexivity.
  - intros [= <-]. reflexivity.
Qed.

(** A zero denominator in either coordinate makes the conversion raise. *)
Lemma exif_gps_to_decimal_zero (lat lon : dms) :
  zero_denominator lat || zero_denominator lon = true ->
  exif_gps_to_decimal [lat; lon] = Raise ZeroDivisionError.
Proof.
  intros H. unfold exif_gps_to_decimal. rewrite !to_deg_cases.
  destruct (zero_denominator lat); [reflexivity|].
  destruct (zero_denominator lon); [reflexivity|discriminate].
Qed.

Lemma gps_block_zero (g : gps_ifd) (lat lon : dms) (lat_ref lon_ref : string)
    (meta : dict) :
  GPSLatitude g = Some lat ->
  GPSLongitude g = Some lon ->
  decode (get_default (GPSLatitudeRef g) "N") = Ok lat_ref ->
  decode (get_default (GPSLongitudeRef g) "E") = Ok lon_ref ->
  zero_denominator lat || zero_denominator lon = true ->
  gps_block decode g meta = (Raise ZeroDivisionError, meta).
Proof.
  intros Hlat Hlon Hr1 Hr2 Hz. unfold gps_block. rewrite Hlat, Hlon.
  unfold bind, lift. rewrite Hr1, Hr2. unfold gps_decimal.
  now rewrite (exif_gps_to_decimal_zero lat lon Hz).
Qed.

End ImageFacts.

(** C2 (as amended).  A zero denominator in the GPS coordinates makes
    [exif_gps_to_decimal] raise ZeroDivisionError.  The [try] of
    [extract_image_metadata] catches it, so the reader returns: the result
    holds the fields stored before the GPS step (Image Size, and Creation
    Date when there is one) and an ['error'] field; GPS is left out, and so
    is every field stored after the GPS step. *)
Theorem zero_denominator_caught
    (decode : bytes -> result string) (decode_ignore : bytes -> string)
    (has_pyheif : bool) (name : string) (src : image_source)
    (img : pil_image) (data : bytes) (exif : exif_dict)
    (created : option string) (lat lon : dms) (lat_ref lon_ref : string) :
  (lower (suffix name) =? ".heic") = false ->
  image_open src = Ok img ->
  nonempty (info_exif img) = Some data ->
  piexif_load img = Ok exif ->
  capture_time decode exif = Ok created ->
  GPSLatitude (GPS exif) = Some lat ->
  GPSLongitude (GPS exif) = Some lon ->
  decode (get_default (GPSLatitudeRef (GPS exif)) "N") = Ok lat_ref ->
  decode (get_default (GPSLongitudeRef (GPS exif)) "E") = Ok lon_ref ->
  zero_denominator lat || zero_denominator lon = true ->
  let meta := extract_image_metadata decode decode_ignore has_pyheif
                name src in
  exif_gps_to_decimal [lat; lon] = Raise ZeroDivisionError
  /\ meta =
     (("Image Size", image_size (width img) (height img))
      :: match created with
         | Some s => [("Creation Date", VStr s)]
         | None => []
         end
      ++ [("error", VStr "float division by zero")])%list
  /\ dict_get "GPS" meta = None
  /\ Forall (fun k => dict_get k meta = None)
       ["Make"; "Model"; "Description"; "File Name"; "File Size";
        "MIME Type"; "Image Width"; "Image Height"].
Proof.
  intros Hs Ho Hd Hl Hc Hlat Hlon Hr1 Hr2 Hz meta.
  assert (Hm : meta =
     (("Image Size", image_size (width img) (height img))
      :: match created with
         | Some s => [("Creation Date", VStr s)]
         | None => []
         end
      ++ [("error", VStr "float division by zero")])%list).
  { unfold meta.
    rewrite (extract_raise decode decode_ignore has_pyheif name src
               ZeroDivisionError
               (match created with
                | Some s =>
                    dict_set "Creation Date" (VStr s)
                      [("Image Size", image_size (width img) (height img))]
                | None =>
                    [("Image Size", image_size (width img) (height img))]
                end)).
    - now destruct created.
    - rewrite (image_try_opened _ _ _ name src img Hs Ho), Hd.
      unfold bind at 1. unfold bind at 1. unfold lift at 1. rewrite Hl.
      unfold exif_block.
      rewrite (capture_step decode exif created _ _ Hc).
      unfold bind at 1.
      now rewrite (gps_block_zero decode (GPS exif) lat lon lat_ref lon_ref
                     _ Hlat Hlon Hr1 Hr2 Hz). }
  split; [now apply exif_gps_to_decimal_zero|].
  split; [exact Hm|]. rewrite Hm.
  split; [now destruct created|].
  repeat constructor; now destruct created.
Qed.

Lemma zero_denominator_caught_witness :
  extract_image_metadata Sample.decode Sample.decode_ignore true "b.jpg"
    (Sample.photo (Ok (Sample.exif_with Sample.gps_zero (Some "Canon")))) =
  [("Image Size", VStr "640x480");
   ("Creation Date", VStr "2021:05:04 10:11:12");
   ("error", VStr "float division by zero")].
Proof.
  exact (proj1 (proj2
    (zero_denominator_caught Sample.decode Sample.decode_ignore true
       "b.jpg"
       (Sample.photo (Ok (Sample.exif_with Sample.gps_zero (Some "Canon"))))
       {| width := 640; height := 480; mime := Some "image/jpeg";
          info_exif := Some "Exif";
          piexif_load :=
            Ok (Sample.exif_with Sample.gps_zero (Some "Canon")) |}
       "Exif" (Sample.exif_with Sample.gps_zero (Some "Canon"))
       (Some "2021:05:04 10:11:12") Sample.lat_zero Sample.lon "N" "E"
       eq_refl eq_refl eq_refl eq_refl eq_refl eq_refl eq_refl eq_refl
       eq_refl eq_refl))).
Defined.

(** C2 (as stated) fails.  For a photo whose latitude has a zero
    denominator the conversion raises, and the reader loses File Name and
    Make, which the same photo without GPS tags keeps. *)
Lemma zero_denominator_drops_fields :
  let read g :=
    extract_image_metadata Sample.decode Sample.decode_ignore true "b.jpg"
      (Sample.photo (Ok (Sample.exif_with g (Some "Canon")))) in
  exif_gps_to_decimal [Sample.lat_zero; Sample.lon] = Raise ZeroDivisionError
  /\ dict_get "File Name" (read Sample.no_gps) = Some (VStr "b.jpg")
  /\ dict_get "File Name" (read Sample.gps_zero) = None
  /\ dict_get "Make" (read Sample.no_gps) = Some (VStr "Canon")
  /\ dict_get "Make" (read Sample.gps_zero) = None
  /\ dict_get "error" (read Sample.gps_zero)
     = Some (VStr "float division by zero").
Proof. repeat split; vm_compute; reflexivity. Qed.

(** ** Reference tags *)

(** C10.  When both coordinates are in the GPS IFD and a reference tag is
    missing, the reference read is N for the latitude and E for the
    longitude, so that coordinate is stored as converted, not negated. *)
Theorem gps_reference_defaults
    (decode : bytes -> result string) (g : gps_ifd) (lat lon : dms)
    (x y : float) (meta : dict) :
  decode "N" = Ok "N" ->
  decode "E" = Ok "E" ->
  GPSLatitude g = Some lat ->
  GPSLongitude g = Some lon ->
  to_deg lat = Ok x ->
  to_deg lon = Ok y ->
  (GPSLatitudeRef g = None ->
   forall r : string,
     decode (get_default (GPSLongitudeRef g) "E") = Ok r ->
     gps_block decode g meta =
     (Ok tt,
      dict_set "GPS"
        (VStr (format_6f x ++ ", " ++ format_6f (hemisphere r "W" y))) meta))
  /\ (GPSLongitudeRef g = None ->
      forall r : string,
        decode (get_default (GPSLatitudeRef g) "N") = Ok r ->
        gps_block decode g meta =
        (Ok tt,
         dict_set "GPS"
           (VStr (format_6f (hemisphere r "S" x) ++ ", " ++ format_6f y))
           meta)).
Proof.
  intros HN HE Hlat Hlon Hx Hy.
  split; intros Hnone r Hr; unfold gps_block; rewrite Hlat, Hlon;
    rewrite Hnone in *; simpl get_default in *; unfold bind, lift;
    [rewrite HN, Hr | rewrite Hr, HE];
    unfold gps_decimal, exif_gps_to_decimal; rewrite Hx, Hy;
    reflexivity.
Qed.

Lemma gps_reference_defaults_witness :
  gps_block Sample.decode Sample.gps_no_refs [] =
  (Ok tt,
   dict_set "GPS"
     (VStr (format_6f (decimal_degrees Sample.lat) ++ ", " ++
            format_6f (hemisphere "E" "W" (decimal_degrees Sample.lon)))) []).
Proof.
  apply (proj1 (gps_reference_defaults Sample.decode Sample.gps_no_refs
                  Sample.lat Sample.lon _ _ []
                  eq_refl eq_refl eq_refl eq_refl eq_refl eq_refl));
    reflexivity.
Defined.

(** ** Failed reads *)

(** Only the transcriber can end the loop body with an exception. *)
Lemma section_completes
    (decode : bytes -> result string) (decode_ignore : bytes -> string)
    (has_pyheif : bool) (f : media_file) :
  snd (section decode decode_ignore has_pyheif f) =
  if is_video_file (name f) then
    match transcript f with
    | Ok _ => None
    | Raise e => Some e
    end
  else None.
Proof.
  unfold section, transcribe_audio. destruct (is_video_file (name f)).
  - now destruct (transcript f).
  - now destruct (is_image_file (name f)).
Qed.

(** ** Reading a video *)

Lemma dict_get_parse_line (k : string) (meta : dict) (line : string) :
  dict_get k (parse_line meta line) =
  match split_colon line with
  | Some (k', v) =>
      if strip k' =? k then Some (VStr (strip v)) else dict_get k meta
  | None => dict_get k meta
  end.
Proof.
  unfold parse_line. destruct (split_colon line) as [[k' v]|]; [|reflexivity].
  destruct (String.eqb_spec (strip k') k) as [->|Hne].
  - apply dict_get_set_eq.
  - apply dict_get_set_ne. congruence.
Qed.

Lemma dict_get_fold_parse (k : string) (lines : list string) :
  forall meta : dict,
    dict_get k (fold_left parse_line lines meta) =
    match printed_value k lines with
    | Some v => Some (VStr v)
    | None => dict_get k meta
    end.
Proof.
  induction lines as [|line rest IH]; intros meta; simpl; [reflexivity|].
  rewrite IH. destruct (printed_value k rest); [reflexivity|].
  rewrite dict_get_parse_line.
  destruct (split_colon line) as [[k' v]|]; [|reflexivity].
  now destruct (strip k' =? k).
Qed.

Lemma dict_get_parse_lines (k : string) (lines : list string) :
  dict_get k (parse_lines lines) = option_map VStr (printed_value k lines).
Proof.
  unfold parse_lines. rewrite dict_get_fold_parse.
  now destruct (printed_value k lines).
Qed.

Lemma dict_get_set_description (k : string) (raw : dict) :
  k <> "Description" ->
  dict_get k (set_description raw) = dict_get k raw.
Proof. intros H. unfold set_description. now apply dict_get_set_ne. Qed.

(** C3 (as amended).  The Creation Date of a video is the text the probe
    printed on its own "Creation Date" line (the last one, were there
    several), trimmed and otherwise unchanged; without such a line the
    field is absent, whatever the other date lines say. *)
Theorem creation_date_from_own_line (stdout : string) :
  let meta := extract_video_metadata (Ok stdout) in
  dict_get "Creation Date" meta =
    option_map VStr (printed_value "Creation Date" (splitlines stdout))
  /\ field_lines meta ("Creation Date", "Creation Date") =
     match printed_value "Creation Date" (splitlines stdout) with
     | Some text => [bullet "Creation Date" text]
     | None => []
     end.
Proof.
  intros meta.
  assert (H : dict_get "Creation Date" meta =
              option_map VStr
                (printed_value "Creation Date" (splitlines stdout))).
  { unfold meta, extract_video_metadata.
    rewrite dict_get_set_description by discriminate.
    apply dict_get_parse_lines. }
  split; [exact H|].
  unfold field_lines. simpl. rewrite H.
  now destruct (printed_value "Creation Date" (splitlines stdout)).
Qed.

(** C3 (as stated) fails.  With CreateDate and ModifyDate in the probe's
    answer, CreateDate is the first present date tag and no Creation Date is
    stored.  With the lines as exiftool prints them, Create Date comes first
    and the field takes the Creation Date line instead. *)
Lemma creation_date_no_fallback :
  let by_tag := parse_lines (splitlines Sample.dates_by_tag) in
  let by_label := parse_lines (splitlines Sample.dates_by_label) in
  first_present date_tags by_tag = Some (VStr "2020:01:01 10:00:00")
  /\ dict_get "Creation Date"
       (extract_video_metadata (Ok Sample.dates_by_tag)) = None
  /\ first_present date_labels by_label = Some (VStr "2020:01:01 10:00:00")
  /\ dict_get "Creation Date"
       (extract_video_metadata (Ok Sample.dates_by_label))
     = Some (VStr "2019:12:31 23:00:00").
Proof. repeat split; vm_compute; reflexivity. Qed.

(** ** The order of the sections *)

Lemma string_leb_trans (a : string) :
  forall b c : string,
    String.leb a b = true -> String.leb b c = true -> String.leb a c = true.
Proof.
  unfold String.leb.
  induction a as [|x a IH]; intros [|y b] [|z c]; simpl; try easy.
  destruct (Ascii.compare x y) eqn:Exy; try discriminate;
    destruct (Ascii.compare y z) eqn:Eyz; try discriminate.
  - apply Ascii.compare_eq_iff in Exy. subst y. rewrite Eyz. apply IH.
  - apply Ascii.compare_eq_iff in Exy. subst y. now rewrite Eyz.
  - apply Ascii.compare_eq_iff in Eyz. subst z. now rewrite Exy.
  - intros _ _. unfold Ascii.compare in *.
    apply N.compare_lt_iff in Exy. apply N.compare_lt_iff in Eyz.
    assert (H : (N_of_ascii x < N_of_ascii z)%N)
      by (now apply (N.lt_trans _ (N_of_ascii y))).
    apply N.compare_lt_iff in H. now rewrite H.
Qed.

Lemma path_le_trans (f g h : media_file) :
  path_le f g -> path_le g h -> path_le f h.
Proof. unfold path_le. apply string_leb_trans. Qed.

Lemma path_lt_le (f g : media_file) : path_lt f g = true -> path_le f g.
Proof.
  unfold path_lt, path_le, String.ltb, String.leb.
  now destruct (String.compare (name f) (name g)).
Qed.

Lemma path_nlt_le (f g : media_file) : path_lt g f = false -> path_le f g.
Proof.
  unfold path_lt, path_le, String.ltb, String.leb.
  rewrite (String.compare_antisym (name f) (name g)).
  now destruct (String.compare (name g) (name f)).
Qed.

Lemma insert_sorted_perm (f : media_file) (l : list media_file) :
  Permutation (insert_sorted f l) (f :: l).
Proof.
  induction l as [|g l IH]; simpl; [reflexivity|].
  destruct (path_lt g f); [|reflexivity].
  rewrite IH. apply perm_swap.
Qed.

Lemma sorted_perm (l : list media_file) : Permutation (sorted l) l.
Proof.
  induction l as [|f l IH]; simpl; [reflexivity|].
  unfold sorted in *. simpl. rewrite insert_sorted_perm. now constructor.
Qed.

Lemma insert_sorted_sorted (f : media_file) (l : list media_file) :
  StronglySorted path_le l -> StronglySorted path_le (insert_sorted f l).
Proof.
  induction l as [|g l IH]; intros Hs; simpl.
  - repeat constructor.
  - inversion Hs as [|? ? Hl Hg]; subst.
    destruct (path_lt g f) eqn:E.
    + constructor; [now apply IH|].
      apply (Permutation_Forall (Permutation_sym (insert_sorted_perm f l))).
      constructor; [now apply path_lt_le | exact Hg].
    + apply path_nlt_le in E. constructor; [exact Hs|].
      constructor; [exact E|].
      eapply Forall_impl; [|exact Hg].
      intros h Hh. now apply (path_le_trans f g h).
Qed.

Lemma sorted_sorted (l : list media_file) : StronglySorted path_le (sorted l).
Proof.
  induction l as [|f l IH]; [constructor|].
  unfold sorted in *. simpl. now apply insert_sorted_sorted.
Qed.

Lemma sorted_names (l : list media_file) :
  StronglySorted (fun a b => String.leb a b = true) (map name (sorted l)).
Proof.
  pose proof (sorted_sorted l) as H.
  induction H as [|f l' Hl IH Hf]; simpl; constructor; [exact IH|].
  apply Forall_map. exact Hf.
Qed.

(** Two sorted lists of names with the same elements are the same list. *)
Lemma sorted_names_unique (l1 : list string) :
  forall l2 : list string,
    StronglySorted (fun a b => String.leb a b = true) l1 ->
    StronglySorted (fun a b => String.leb a b = true) l2 ->
    Permutation l1 l2 -> l1 = l2.
Proof.
  induction l1 as [|a l1 IH]; intros l2 H1 H2 Hp.
  - now apply Permutation_nil in Hp.
  - destruct l2 as [|b l2];
      [apply Permutation_sym, Permutation_nil in Hp; discriminate|].
    inversion H1 as [|? ? H1' Ha]; subst.
    inversion H2 as [|? ? H2' Hb]; subst.
    assert (Hab : a = b).
    { assert (Hin1 : In a (b :: l2))
        by (apply (Permutation_in a Hp); now left).
      assert (Hin2 : In b (a :: l1))
        by (apply (Permutation_in b (Permutation_sym Hp)); now left).
      destruct Hin1 as [->|Hin1]; [reflexivity|].
      destruct Hin2 as [->|Hin2]; [reflexivity|].
      apply String.leb_antisym.
      - rewrite Forall_forall in Ha. now apply Ha.
      - rewrite Forall_forall in Hb. now apply Hb. }
    subst b. f_equal. apply IH; try assumption.
    now apply Permutation_cons_inv in Hp.
Qed.

Lemma media_files_perm (l1 l2 : list media_file) :
  Permutation l1 l2 -> Permutation (media_files l1) (media_files l2).
Proof.
  unfold media_files.
  induction 1 as [|f l l' Hp IH|f g l|l l' l'' H1 IH1 H2 IH2]; simpl.
  - constructor.
  - destruct (is_file f && _); [now constructor | exact IH].
  - destruct (is_file f && _), (is_file g && _);
      try reflexivity; apply perm_swap.
  - now transitivity (filter
      (fun f => is_file f &&
                (is_video_file (name f) || is_image_file (name f))) l').
Qed.

(** The order of the directory listing does not show in the order of the
    names. *)
Lemma sorted_names_listing (l1 l2 : list media_file) :
  Permutation l1 l2 ->
  map name (sorted (media_files l1)) = map name (sorted (media_files l2)).
Proof.
  intros Hp. apply sorted_names_unique; try apply sorted_names.
  apply Permutation_map.
  rewrite (sorted_perm (media_files l1)), (sorted_perm (media_files l2)).
  now apply media_files_perm.
Qed.

Section ReportFacts.

Variable decode : bytes -> result string.
Variable decode_ignore : bytes -> string.
Variable has_pyheif : bool.

Lemma section_heading (f : media_file) :
  exists rest : list string,
    fst (section decode decode_ignore has_pyheif f) = heading f :: rest.
Proof.
  unfold section, transcribe_audio. destruct (is_video_file (name f)).
  - destruct (transcript f); eexists; reflexivity.
  - destruct (is_image_file (name f)); eexists; reflexivity.
Qed.

Lemma write_sections_complete (files : list media_file) :
  (forall f, In f files ->
             snd (section decode decode_ignore has_pyheif f) = None) ->
  write_sections decode decode_ignore has_pyheif files =
  (flat_map (fun f => fst (section decode decode_ignore has_pyheif f)) files,
   None).
Proof.
  induction files as [|f files IH]; intros H; simpl; [reflexivity|].
  pose proof (H f (or_introl eq_refl)) as Hf.
  destruct (section decode decode_ignore has_pyheif f) as [out r].
  simpl in Hf. subst r.
  rewrite IH by (intros g Hg; apply H; now right). reflexivity.
Qed.

End ReportFacts.

(** C6.  The sections of the report are those of the files kept by the run,
    in the order of their paths: the text written is the concatenation of
    the sections of the sorted list, each opening with the heading of its
    file; the sorted list holds the same files, each path not after the
    next; listing the directory in another order gives the same order of
    names.  For b.jpg, a.mp4, c.png the headings come out as a.mp4, b.jpg,
    c.png. *)
Theorem sections_in_path_order
    (decode : bytes -> result string) (decode_ignore : bytes -> string)
    (has_pyheif debug : bool) (listing : list media_file) :
  let files :=
    if debug then debug_files (media_files listing)
    else media_files listing in
  let section_of := section decode decode_ignore has_pyheif in
  media_files listing <> [] ->
  (forall f, In f files -> is_video_file (name f) = true ->
             exists text, transcript f = Ok text) ->
  main decode decode_ignore has_pyheif true debug listing =
    Some (String.concat ""
            (flat_map (fun f => fst (section_of f)) (sorted files)), None)
  /\ StronglySorted path_le (sorted files)
  /\ Permutation (sorted files) files
  /\ (forall f, exists rest, fst (section_of f) = heading f :: rest)
  /\ (forall listing' : list media_file,
         Permutation listing listing' ->
         map name (sorted (media_files listing)) =
         map name (sorted (media_files listing')))
  /\ map (fun f => hd "" (fst (section_of f)))
         (sorted (media_files Sample.listing)) =
     ["## a.mp4" ++ nl ++ nl; "## b.jpg" ++ nl ++ nl; "## c.png" ++ nl ++ nl].
Proof.
  intros files section_of Hne Ht.
  split;
    [|split; [apply sorted_sorted
             |split; [apply sorted_perm
                     |split; [|split; [apply sorted_names_listing|]]]]].
  - unfold main. simpl negb. cbv iota.
    destruct (media_files listing) as [|f0 rest] eqn:E; [congruence|].
    fold files. rewrite write_sections_complete; [reflexivity|].
    intros f Hin. rewrite section_completes.
    destruct (is_video_file (name f)) eqn:Ev; [|reflexivity].
    destruct (Ht f) as [text ->]; [|exact Ev|reflexivity].
    apply (Permutation_in f (sorted_perm files) Hin).
  - apply section_heading.
  - vm_compute. reflexivity.
Qed.

Lemma sections_in_path_order_witness :
  main Sample.decode Sample.decode_ignore true true false Sample.listing =
  Some (String.concat ""
          (flat_map
             (fun f =>
                fst (section Sample.decode Sample.decode_ignore true f))
             (sorted (media_files Sample.listing))), None).
Proof.
  refine (proj1 (sections_in_path_order Sample.decode Sample.decode_ignore
                   true false Sample.listing _ _)).
  - discriminate.
  - intros f Hf _. exists "hello".
    assert (H : forall g, In g Sample.listing -> transcript g = Ok "hello").
    { intros g [<-|[<-|[<-|[]]]]; reflexivity. }
    apply H.
    assert (Hin : forall g, In g (media_files Sample.listing) ->
                            In g Sample.listing).
    { intros g Hg. unfold media_files in Hg.
      now apply filter_In in Hg. }
    apply Hin. exact Hf.
Defined.

(** * Further properties of the script *)

(** ** File kinds *)

Lemma mem_cases (x : string) (xs : list string) :
  mem x xs = true -> In x xs.
Proof.
  unfold mem. intros H. apply existsb_exists in H as [y [Hin Hy]].
  apply String.eqb_eq in Hy. now subst y.
Qed.

Lemma video_not_image (name : string) :
  is_video_file name && is_image_file name = false.
Proof.
  unfold is_video_file, is_image_file.
  destruct (mem (lower (suffix name)) VIDEO_EXTENSIONS) eqn:Ev;
    [|reflexivity].
  apply mem_cases in Ev. simpl in Ev.
  destruct Ev as [<-|[<-|[<-|[<-|[<-|[<-|[]]]]]]]; reflexivity.
Qed.

(** X1.  No file is both a video and an image: the two extension sets have
    no member in common, so the two tests of the loop body never both
    hold, and no video is read as an image. *)
Theorem kinds_disjoint (name : string) :
  is_video_file name && is_image_file name = false
  /\ (forall ext, In ext VIDEO_EXTENSIONS -> mem ext IMAGE_EXTENSIONS = false).
Proof.
  split; [apply video_not_image|].
  intros ext H. simpl in H.
  destruct H as [<-|[<-|[<-|[<-|[<-|[<-|[]]]]]]]; reflexivity.
Qed.

Lemma kinds_disjoint_witness :
  mem ".mp4" IMAGE_EXTENSIONS = false.
Proof. apply (proj2 (kinds_disjoint "a.mp4")). simpl. tauto. Defined.

Lemma lower_char_dot (a : ascii) :
  (lower_char a =? ".")%char = (a =? ".")%char.
Proof.
  destruct a as [[] [] [] [] [] [] [] []]; reflexivity.
Qed.

Lemma lower_char_idem (a : ascii) : lower_char (lower_char a) = lower_char a.
Proof.
  destruct a as [[] [] [] [] [] [] [] []]; reflexivity.
Qed.

Lemma lower_idem (s : string) : lower (lower s) = lower s.
Proof.
  induction s as [|c s IH]; simpl; [reflexivity|].
  now rewrite lower_char_idem, IH.
Qed.

Lemma lower_length (s : string) : String.length (lower s) = String.length s.
Proof. induction s as [|c s IH]; simpl; [reflexivity | now rewrite IH]. Qed.

Lemma rfind_lower (s : string) :
  forall i : nat, rfind "." (lower s) i = rfind "." s i.
Proof.
  induction s as [|c s IH]; intros i; simpl; [reflexivity|].
  now rewrite IH, lower_char_dot.
Qed.

Lemma drop_lower (i : nat) :
  forall s : string, drop i (lower s) = lower (drop i s).
Proof.
  induction i as [|i IH]; intros [|c s]; simpl; try reflexivity. apply IH.
Qed.

Lemma suffix_lower (name : string) : suffix (lower name) = lower (suffix name).
Proof.
  unfold suffix. rewrite rfind_lower, lower_length.
  destruct (rfind "." name 0) as [i|]; [|reflexivity].
  destruct ((0 <? i)%nat && (i <? String.length name - 1)%nat);
    [apply drop_lower | reflexivity].
Qed.

(** X2.  The kind of a file does not depend on the case of its name: a name
    and its lower-case form are classified alike. *)
Theorem kind_ignores_case (name : string) :
  is_video_file (lower name) = is_video_file name
  /\ is_image_file (lower name) = is_image_file name.
Proof.
  unfold is_video_file, is_image_file.
  now rewrite suffix_lower, lower_idem.
Qed.

(** X3.  A name without a dot, a name whose only dot is its first character
    and a name that ends with a dot have no suffix, so the run takes the
    file for neither a video nor an image and leaves it out. *)
Theorem no_extension_ignored (name : string) :
  rfind "." name 0 = None
  \/ rfind "." name 0 = Some 0%nat
  \/ rfind "." name 0 = Some (String.length name - 1)%nat ->
  suffix name = ""
  /\ is_video_file name = false
  /\ is_image_file name = false.
Proof.
  intros H.
  assert (Hs : suffix name = "").
  { unfold suffix. destruct H as [->|[->| ->]]; [reflexivity..|].
    now rewrite Nat.ltb_irrefl, andb_false_r. }
  unfold is_video_file, is_image_file. now rewrite Hs.
Qed.

Lemma no_extension_ignored_witness :
  suffix ".mp4" = ""
  /\ is_video_file ".mp4" = false
  /\ is_image_file ".mp4" = false.
Proof. apply no_extension_ignored. right. left. reflexivity. Defined.

(** ** The run *)

Lemma media_files_nil (listing : list media_file) :
  media_files listing = [] <-> forall f, In f listing -> is_media f = false.
Proof.
  unfold media_files. split.
  - intros H f Hin. fold (is_media f).
    destruct (is_media f) eqn:E; [|reflexivity].
    assert (Hf : In f []) by (rewrite <- H; apply filter_In; auto).
    destruct Hf.
  - intros H. induction listing as [|f l IH]; simpl; [reflexivity|].
    fold (is_media f). rewrite (H f) by now left.
    apply IH. intros g Hg. apply H. now right.
Qed.

(** X4.  The run leaves without opening the output file in two cases only:
    the input path is not a directory, or no entry of the directory is a
    regular file with a video or image extension. *)
Theorem no_output_cases
    (decode : bytes -> result string) (decode_ignore : bytes -> string)
    (has_pyheif input_is_dir debug : bool) (listing : list media_file) :
  main decode decode_ignore has_pyheif input_is_dir debug listing = None
  <-> input_is_dir = false
      \/ (forall f, In f listing -> is_media f = false).
Proof.
  rewrite <- media_files_nil. unfold main.
  destruct input_is_dir; simpl.
  - destruct (media_files listing) as [|f rest] eqn:E.
    + split; [now right | reflexivity].
    + destruct (write_sections _ _ _ _) as [out r].
      split; [discriminate | intros [H|H]; discriminate].
  - split; [now left | reflexivity].
Qed.

(** X5.  Debug mode keeps at most two of the media files, at most one video
    and at most one image, all taken from the files of the run; it keeps a
    video whenever there is one, and an image whenever there is one. *)
Theorem debug_keeps_one_of_each (files : list media_file) :
  (List.length (debug_files files) <= 2)%nat
  /\ (forall f, In f (debug_files files) -> In f files)
  /\ (List.length (filter (fun f => is_video_file (name f)) (debug_files files))
      <= 1)%nat
  /\ (List.length (filter (fun f => is_image_file (name f)) (debug_files files))
      <= 1)%nat
  /\ (existsb (fun f => is_video_file (name f)) (debug_files files) =
      existsb (fun f => is_video_file (name f)) files)
  /\ (existsb (fun f => is_image_file (name f)) (debug_files files) =
      existsb (fun f => is_image_file (name f)) files).
Proof.
  unfold debug_files, first_where.
  pose proof (fun f => video_not_image (name f)) as Hd.
  destruct (find (fun f => is_video_file (name f)) files) as [v|] eqn:Ev;
    destruct (find (fun f => is_image_file (name f)) files) as [i|] eqn:Ei;
    simpl.
  all: try (apply find_some in Ev as [Hvin Hv]).
  all: try (apply find_some in Ei as [Hiin Hi]).
  all: try (pose proof (find_none _ _ Ev) as Hnv).
  all: try (pose proof (find_none _ _ Ei) as Hni).
  all: try (pose proof (Hd v) as Hdv; rewrite Hv in Hdv; simpl in Hdv).
  all: try (pose proof (Hd i) as Hdi; rewrite Hi, andb_true_r in Hdi).
  all: rewrite ?Hv, ?Hi, ?Hdv, ?Hdi; simpl.
  all: repeat split; try lia.
  all: try (intros f Hf; repeat destruct Hf as [<-|Hf]; easy).
  all: symmetry.
  all: try (apply existsb_exists; exists v; split; assumption).
  all: try (apply existsb_exists; exists i; split; assumption).
  all: try (apply not_true_is_false; intros H;
            apply existsb_exists in H as [f [Hin Hf]];
            first [rewrite (Hnv f Hin) in Hf | rewrite (Hni f Hin) in Hf];
            discriminate).
Qed.

(** X6.  When the transcriber raises on a video, the text written stops
    there: it holds the whole sections of the files before it, then the
    heading and the metadata block of that video, without a transcription
    and without anything of the files after it; the exception ends the
    run. *)
Theorem transcription_failure_truncates
    (decode : bytes -> result string) (decode_ignore : bytes -> string)
    (has_pyheif : bool) (before after : list media_file) (f : media_file)
    (e : exn) :
  (forall g, In g before -> is_video_file (name g) = true ->
             exists text, transcript g = Ok text) ->
  is_video_file (name f) = true ->
  transcript f = Raise e ->
  write_sections decode decode_ignore has_pyheif (before ++ f :: after) =
  ((flat_map (fun g => fst (section decode decode_ignore has_pyheif g))
      before ++
    [heading f; metadata_label] ++
    metadata_lines video_fields (extract_video_metadata (probe f)))%list,
   Some e).
Proof.
  intros Hb Hv Ht.
  assert (Hf : section decode decode_ignore has_pyheif f =
               (([heading f; metadata_label] ++
                 metadata_lines video_fields
                   (extract_video_metadata (probe f)))%list, Some e)).
  { unfold section, transcribe_audio. now rewrite Hv, Ht. }
  induction before as [|g before IH]; simpl.
  - now rewrite Hf.
  - assert (Hg : snd (section decode decode_ignore has_pyheif g) = None).
    { rewrite section_completes.
      destruct (is_video_file (name g)) eqn:Eg; [|reflexivity].
      destruct (Hb g) as [text ->]; auto. now left. }
    destruct (section decode decode_ignore has_pyheif g) as [out r].
    simpl in Hg. subst r.
    rewrite IH by (intros h Hh; apply Hb; now right).
    simpl. now rewrite <- app_assoc.
Qed.

Lemma transcription_failure_truncates_witness :
  let silent :=
    {| name := "b.mp4"; is_file := true; probe := Sample.no_exiftool;
       image := Sample.unreadable;
       transcript := Raise (Exception "out of memory") |} in
  let photo := Sample.entry "a.png" Sample.no_exiftool
                 (Sample.plain "image/png") in
  let late := Sample.entry "c.png" Sample.no_exiftool
                (Sample.plain "image/png") in
  write_sections Sample.decode Sample.decode_ignore true
    [photo; silent; late] =
  ((flat_map
      (fun g => fst (section Sample.decode Sample.decode_ignore true g))
      [photo] ++
    [heading silent; metadata_label] ++
    metadata_lines video_fields (extract_video_metadata (probe silent)))%list,
   Some (Exception "out of memory")).
Proof.
  intros silent photo late.
  apply (transcription_failure_truncates Sample.decode Sample.decode_ignore
           true [photo] [late] silent (Exception "out of memory")).
  - intros g [<-|[]] Hv. discriminate Hv.
  - reflexivity.
  - reflexivity.
Defined.

(** ** Reading an image, further *)

(** X8.  [exif_gps_to_decimal] converts a pair of coordinates, raises
    ZeroDivisionError exactly when one of the six denominators of the pair
    is zero, and answers (None, None) for a sequence of any other length
    without looking at its elements. *)
Theorem exif_gps_to_decimal_cases (gps : list dms) :
  exif_gps_to_decimal gps =
  match gps with
  | [lat; lon] =>
      if zero_denominator lat || zero_denominator lon
      then Raise ZeroDivisionError
      else Ok (Some (decimal_degrees lat), Some (decimal_degrees lon))
  | _ => Ok (None, None)
  end.
Proof.
  destruct gps as [|lat [|lon [|g gps]]]; try reflexivity.
  unfold exif_gps_to_decimal. rewrite !to_deg_cases.
  destruct (zero_denominator lat); [reflexivity|].
  now destruct (zero_denominator lon).
Qed.

Section Frame.

Variable decode : bytes -> result string.
Variable decode_ignore : bytes -> string.

(** A property of [meta] that storing under a key of [K] keeps. *)
Variable K : string -> Prop.
Variable P : dict -> Prop.
Hypothesis P_set : forall k v meta, K k -> P meta -> P (dict_set k v meta).








End Frame.



(** ** Reading a video, further *)

Lemma printed_value_app (key : string) (l1 l2 : list string) :
  printed_value key (l1 ++ l2) =
  match printed_value key l2 with
  | Some v => Some v
  | None => printed_value key l1
  end.
Proof.
  induction l1 as [|line l1 IH]; simpl.
  - now destruct (printed_value key l2).
  - rewrite IH. now destruct (printed_value key l2).
Qed.

(** X11.  Every field of a video other than Description holds what the
    probe printed for its key, and a later line for a key replaces an
    earlier one: for the lines of two answers put one after the other, the
    value is the one of the second answer when it has the key, and the one
    of the first otherwise. *)
Theorem video_field_from_last_line (stdout key : string) :
  key <> "Description" ->
  dict_get key (extract_video_metadata (Ok stdout)) =
    option_map VStr (printed_value key (splitlines stdout))
  /\ forall l1 l2 : list string,
       dict_get key (parse_lines (l1 ++ l2)) =
       match dict_get key (parse_lines l2) with
       | Some v => Some v
       | None => dict_get key (parse_lines l1)
       end.
Proof.
  intros Hk. split.
  - unfold extract_video_metadata.
    rewrite dict_get_set_description by exact Hk.
    apply dict_get_parse_lines.
  - intros l1 l2. rewrite !dict_get_parse_lines, printed_value_app.
    now destruct (printed_value key l2).
Qed.

Lemma video_field_from_last_line_witness :
  dict_get "Make" (extract_video_metadata (Ok Sample.empty_make)) =
  option_map VStr (printed_value "Make" (splitlines Sample.empty_make)).
Proof.
  refine (proj1 (video_field_from_last_line Sample.empty_make "Make" _)).
  discriminate.
Defined.

Lemma split_colon_parts (line : string) :
  match split_colon line with
  | Some (k, v) => line = k ++ ":" ++ v /\ no_colon k = true
  | None => no_colon line = true
  end.
Proof.
  induction line as [|c line IH]; simpl; [reflexivity|].
  destruct (Ascii.eqb_spec c ":") as [->|Hne].
  - now split.
  - assert (Hc : negb (c =? ":")%char = true)
      by (apply negb_true_iff; now apply Ascii.eqb_neq).
    destruct (split_colon line) as [[k v]|].
    + destruct IH as [-> Hk]. split; [reflexivity|].
      unfold no_colon in *. simpl. now rewrite Hc.
    + unfold no_colon in *. simpl. now rewrite Hc.
Qed.

(** X12.  A probe line is cut at its first colon: the key is the text
    before it and has no colon, the value is all the text after it, colons
    included, and key, colon and value make up the line again.  A line
    without a colon is not cut. *)
Theorem split_colon_spec (k v line : string) :
  no_colon k = true ->
  split_colon (k ++ ":" ++ v) = Some (k, v)
  /\ match split_colon line with
     | Some (k', v') => line = k' ++ ":" ++ v' /\ no_colon k' = true
     | None => no_colon line = true
     end.
Proof.
  intros Hk. split.
  - change (":" ++ v) with (String ":"%char v).
    induction k as [|c k IH]; simpl; [reflexivity|].
    unfold no_colon in Hk. simpl in Hk.
    apply andb_true_iff in Hk as [Hc Hk].
    apply negb_true_iff in Hc. rewrite Hc. now rewrite (IH Hk).
  - apply split_colon_parts.
Qed.

Lemma split_colon_spec_witness :
  split_colon ("Create Date " ++ ":" ++ " 2020:01:01 10:00:00") =
  Some ("Create Date ", " 2020:01:01 10:00:00").
Proof.
  exact (proj1 (split_colon_spec "Create Date " " 2020:01:01 10:00:00" ""
                  eq_refl)).
Defined.

(** *** What the video reader stores *)

Lemma rstrip_idem (s : string) : rstrip (rstrip s) = rstrip s.
Proof.
  induction s as [|c s IH]; simpl; [reflexivity|].
  destruct (rstrip s) as [|d r] eqn:E.
  - destruct (isspace c) eqn:Ec; simpl; [reflexivity | now rewrite Ec].
  - cbn [rstrip] in *. now rewrite IH.
Qed.

Lemma lstrip_head (s : string) :
  lstrip s = ""
  \/ exists c t, lstrip s = String c t /\ isspace c = false.
Proof.
  induction s as [|c s IH]; simpl; [now left|].
  destruct (isspace c) eqn:E; [exact IH|]. right. now exists c, s.
Qed.

Lemma lstrip_rstrip_lstrip (s : string) :
  lstrip (rstrip (lstrip s)) = rstrip (lstrip s).
Proof.
  destruct (lstrip_head s) as [->|[c [t [-> Hc]]]]; [reflexivity|].
  simpl. destruct (rstrip t); rewrite ?Hc; simpl; now rewrite ?Hc.
Qed.

Lemma strip_idem (s : string) : strip (strip s) = strip s.
Proof.
  unfold strip. now rewrite lstrip_rstrip_lstrip, rstrip_idem.
Qed.

Lemma all_chars_lstrip (p : ascii -> bool) (s : string) :
  all_chars p s = true -> all_chars p (lstrip s) = true.
Proof.
  induction s as [|c s IH]; simpl; [easy|].
  intros H. destruct (isspace c); [|exact H].
  apply andb_true_iff in H as [_ H]. now apply IH.
Qed.

Lemma all_chars_rstrip (p : ascii -> bool) (s : string) :
  all_chars p s = true -> all_chars p (rstrip s) = true.
Proof.
  induction s as [|c s IH]; simpl; [easy|].
  intros H. apply andb_true_iff in H as [Hc H]. specialize (IH H).
  destruct (rstrip s) as [|d r].
  - destruct (isspace c); simpl; [reflexivity | now rewrite Hc].
  - change (p c && all_chars p (String d r) = true). now rewrite Hc, IH.
Qed.

Lemma all_chars_strip (p : ascii -> bool) (s : string) :
  all_chars p s = true -> all_chars p (strip s) = true.
Proof. intros H. now apply all_chars_rstrip, all_chars_lstrip. Qed.

Lemma all_chars_rev_string (p : ascii -> bool) (s : string) :
  forall acc : string,
    all_chars p (rev_string acc s) = all_chars p s && all_chars p acc.
Proof.
  induction s as [|c s IH]; intros acc; simpl; [reflexivity|].
  rewrite IH. simpl. now rewrite andb_assoc, (andb_comm (all_chars p s)).
Qed.

Lemma splitlines_from_one_line (n : nat) :
  forall s cur : string,
    (String.length s <= n)%nat ->
    no_linebreak cur = true ->
    Forall (fun line => no_linebreak line = true) (splitlines_from cur s).
Proof.
  unfold no_linebreak.
  induction n as [|n IH]; intros s cur Hn Hcur.
  - destruct s; [|simpl in Hn; lia]. simpl.
    destruct cur; constructor; [|constructor].
    now rewrite all_chars_rev_string, Hcur.
  - destruct s as [|c s]; simpl.
    + destruct cur; constructor; [|constructor].
      now rewrite all_chars_rev_string, Hcur.
    + simpl in Hn. destruct (is_linebreak c) eqn:Ec.
      * constructor; [now rewrite all_chars_rev_string, Hcur|].
        destruct s as [|c' s']; [constructor|].
        destruct ((code c =? 13)%N && (code c' =? 10)%N).
        -- apply IH; [simpl in Hn; lia | reflexivity].
        -- apply IH; [lia | reflexivity].
      * apply IH; [lia|]. simpl. now rewrite Ec.
Qed.

Lemma splitlines_one_line (s : string) :
  Forall (fun line => no_linebreak line = true) (splitlines s).
Proof.
  now apply (splitlines_from_one_line (String.length s)).
Qed.

Lemma split_colon_all_chars (p : ascii -> bool) (s : string) :
  forall k v : string,
    split_colon s = Some (k, v) ->
    all_chars p s = true ->
    all_chars p k = true /\ all_chars p v = true.
Proof.
  induction s as [|c s IH]; intros k v; simpl; [discriminate|].
  intros Hs H. apply andb_true_iff in H as [Hc H].
  destruct (c =? ":")%char.
  - injection Hs as <- <-. now split.
  - destruct (split_colon s) as [[k' v']|]; [|discriminate].
    injection Hs as <- <-. destruct (IH k' v' eq_refl H) as [Hk Hv].
    split; [|exact Hv]. simpl. now rewrite Hc.
Qed.

Lemma dict_set_Forall (Q : string * value -> Prop) (k : string) (v : value)
    (d : dict) :
  Q (k, v) -> Forall Q d -> Forall Q (dict_set k v d).
Proof.
  intros Hq. induction 1 as [|[k' v'] d Hx Hd IH]; simpl.
  - now repeat constructor.
  - destruct (k' =? k); constructor; assumption.
Qed.

Lemma dict_get_In (k : string) (v : value) (d : dict) :
  dict_get k d = Some v -> In (k, v) d.
Proof.
  induction d as [|[k' v'] d IH]; simpl; [discriminate|].
  destruct (String.eqb_spec k' k) as [->|Hne].
  - intros [= ->]. now left.
  - intros H. right. now apply IH.
Qed.

Lemma parse_line_clean (meta : dict) (line : string) :
  no_linebreak line = true ->
  Forall clean_entry meta -> Forall clean_entry (parse_line meta line).
Proof.
  intros Hl Hm. unfold parse_line.
  destruct (split_colon line) as [[k v]|] eqn:E; [|exact Hm].
  apply dict_set_Forall; [|exact Hm].
  destruct (split_colon_all_chars _ line k v E Hl) as [Hk Hv].
  pose proof (split_colon_parts line) as Hc.
  rewrite E in Hc. destruct Hc as [_ Hc].
  unfold clean_entry, clean_text, no_linebreak, no_colon in *. simpl.
  repeat split; try apply strip_idem; try now apply all_chars_strip.
  exists (strip v). repeat split; try apply strip_idem.
  now apply all_chars_strip.
Qed.

Lemma parse_lines_clean (lines : list string) :
  Forall (fun line => no_linebreak line = true) lines ->
  Forall clean_entry (parse_lines lines).
Proof.
  unfold parse_lines.
  assert (H : forall meta, Forall clean_entry meta ->
              Forall (fun line => no_linebreak line = true) lines ->
              Forall clean_entry (fold_left parse_line lines meta)).
  { induction lines as [|line lines IH]; intros meta Hm Hl; simpl;
      [exact Hm|].
    inversion Hl; subst. apply IH; [|assumption].
    now apply parse_line_clean. }
  now apply H.
Qed.

Lemma py_or_cases (a b : option value) : py_or a b = a \/ py_or a b = b.
Proof.
  unfold py_or. destruct a as [v|]; [|now right].
  destruct (truthy v); [now left | now right].
Qed.

(** X13.  Whatever the probe prints, every entry the video reader stores is
    clean: the key is trimmed, on one line and without a colon, and the
    value is text, trimmed and on one line. *)
Theorem video_entries_clean (stdout : string) :
  Forall clean_entry (extract_video_metadata (Ok stdout)).
Proof.
  unfold extract_video_metadata.
  pose proof (parse_lines_clean _ (splitlines_one_line stdout)) as Hraw.
  set (raw := parse_lines (splitlines stdout)) in *.
  unfold set_description.
  assert (Hget : forall k v, dict_get k raw = Some v ->
                   exists s, v = VStr s /\ clean_text s).
  { intros k v H. apply dict_get_In in H.
    rewrite Forall_forall in Hraw. now destruct (Hraw _ H) as [_ [_ Hv]]. }
  apply dict_set_Forall; [|exact Hraw].
  assert (Hempty : clean_entry ("Description", VStr "")).
  { repeat split. exists "". now repeat split. }
  set (desc := py_or _ _).
  assert (Hd : desc = None \/ exists k, dict_get k raw = desc).
  { unfold desc.
    destruct (py_or_cases
                (py_or (py_or (dict_get "Description" raw)
                              (dict_get "UserComment" raw))
                       (dict_get "XPComment" raw))
                (dict_get "Comment" raw)) as [-> | ->]; [|eauto].
    destruct (py_or_cases
                (py_or (dict_get "Description" raw)
                       (dict_get "UserComment" raw))
                (dict_get "XPComment" raw)) as [-> | ->]; [|eauto].
    destruct (py_or_cases (dict_get "Description" raw)
                (dict_get "UserComment" raw)) as [-> | ->]; eauto. }
  destruct desc as [v|]; [|exact Hempty].
  destruct (truthy v); [|exact Hempty].
  destruct Hd as [Hd|[k Hk]]; [discriminate|].
  destruct (Hget k v Hk) as [s [-> Hs]].
  repeat split. now exists s.
Qed.

(** ** The GPS field *)

Lemma gps_decimal_nonzero (lat lon : dms) (lat_ref lon_ref : string) :
  zero_denominator lat = false ->
  zero_denominator lon = false ->
  gps_decimal lat lon lat_ref lon_ref =
  Ok (hemisphere lat_ref "S" (decimal_degrees lat),
      hemisphere lon_ref "W" (decimal_degrees lon)).
Proof.
  intros Hlat Hlon. unfold gps_decimal, exif_gps_to_decimal.
  now rewrite (to_deg_nonzero lat Hlat), (to_deg_nonzero lon Hlon).
Qed.

(** X14.  With both coordinates in the GPS IFD, references that decode and
    no zero denominator, the GPS step stores "lat, lon" with six decimals,
    the latitude negated exactly when its reference reads S and the
    longitude exactly when its reference reads W.  With a coordinate
    missing, the step stores nothing and does not look at the references. *)
Theorem gps_field_stored
    (decode : bytes -> result string) (g : gps_ifd) (lat lon : dms)
    (lat_ref lon_ref : string) (meta : dict) :
  GPSLatitude g = Some lat ->
  GPSLongitude g = Some lon ->
  decode (get_default (GPSLatitudeRef g) "N") = Ok lat_ref ->
  decode (get_default (GPSLongitudeRef g) "E") = Ok lon_ref ->
  zero_denominator lat || zero_denominator lon = false ->
  gps_block decode g meta =
    (Ok tt,
     dict_set "GPS"
       (VStr (format_6f (hemisphere lat_ref "S" (decimal_degrees lat))
              ++ ", " ++
              format_6f (hemisphere lon_ref "W" (decimal_degrees lon))))
       meta)
  /\ (forall (r1 r2 : option bytes) (c : option dms),
         gps_block decode
           {| GPSLatitudeRef := r1; GPSLatitude := None;
              GPSLongitudeRef := r2; GPSLongitude := c |} meta
         = (Ok tt, meta)
         /\ gps_block decode
              {| GPSLatitudeRef := r1; GPSLatitude := c;
                 GPSLongitudeRef := r2; GPSLongitude := None |} meta
            = (Ok tt, meta)).
Proof.
  intros Hlat Hlon Hr1 Hr2 Hz. split.
  - apply orb_false_elim in Hz as [Hz1 Hz2].
    unfold gps_block. rewrite Hlat, Hlon. unfold bind, lift.
    rewrite Hr1, Hr2.
    now rewrite (gps_decimal_nonzero lat lon lat_ref lon_ref Hz1 Hz2).
  - intros r1 r2 c. split; [reflexivity|].
    unfold gps_block. simpl. now destruct c.
Qed.

Lemma gps_field_stored_witness :
  gps_block Sample.decode
    {| GPSLatitudeRef := Some "S"; GPSLatitude := Some Sample.lat;
       GPSLongitudeRef := Some "W"; GPSLongitude := Some Sample.lon |} [] =
  (Ok tt,
   dict_set "GPS"
     (VStr (format_6f (hemisphere "S" "S" (decimal_degrees Sample.lat))
            ++ ", " ++
            format_6f (hemisphere "W" "W" (decimal_degrees Sample.lon))))
     []).
Proof.
  exact (proj1 (gps_field_stored Sample.decode
    {| GPSLatitudeRef := Some "S"; GPSLatitude := Some Sample.lat;
       GPSLongitudeRef := Some "W"; GPSLongitude := Some Sample.lon |}
    Sample.lat Sample.lon "S" "W" []
    eq_refl eq_refl eq_refl eq_refl eq_refl)).
Defined.

(** * The sections of the report *)

(** ** What the loop body writes *)

Lemma truthy_blank (v : value) : truthy v = negb (is_blank v).
Proof. destruct v as [[|c s]|[|p|p]]; reflexivity. Qed.

Lemma field_lines_declared (meta : dict) (f : string * string) :
  field_lines meta f = declared_bullet meta f.
Proof.
  destruct f as [key label].
  unfold field_lines, declared_bullet, description_text. simpl.
  destruct (String.eqb_spec key "Description") as [->|Hne]; [|reflexivity].
  destruct (dict_get "Description" meta) as [v|]; [|reflexivity].
  rewrite truthy_blank. now destruct (is_blank v).
Qed.

Lemma any_field_declared (fields : list (string * string)) (meta : dict) :
  any_field fields meta = negb (none_declared fields meta).
Proof.
  unfold any_field, none_declared.
  induction fields as [|f fields IH]; simpl; [reflexivity|].
  rewrite IH. now destruct (dict_has (fst f) meta).
Qed.

Lemma metadata_lines_declared (video : bool) (meta : dict) :
  metadata_lines (if video then video_fields else image_fields) meta =
  declared_block video meta.
Proof.
  unfold metadata_lines, declared_block, declared_bullets.
  replace (declared_fields video)
    with (if video then video_fields else image_fields)
    by (now destruct video).
  rewrite any_field_declared.
  rewrite (flat_map_ext _ _ (field_lines_declared meta)).
  now destruct (none_declared _ meta).
Qed.

(** The loop body writes the section the specification lays out. *)
Lemma section_declared
    (decode : bytes -> result string) (decode_ignore : bytes -> string)
    (has_pyheif : bool) (f : media_file) :
  is_video_file (name f) || is_image_file (name f) = true ->
  fst (section decode decode_ignore has_pyheif f) =
  declared_section (is_video_file (name f)) (name f)
    (metadata_of decode decode_ignore has_pyheif f) (transcript f).
Proof.
  intros Hk. unfold section, metadata_of, transcribe_audio, declared_section.
  destruct (is_video_file (name f)) eqn:Ev.
  - rewrite <- (metadata_lines_declared true).
    destruct (transcript f); simpl; [reflexivity|].
    now rewrite app_nil_r.
  - simpl in Hk. rewrite Hk.
    rewrite <- (metadata_lines_declared false). reflexivity.
Qed.

Lemma declared_bullet_ext (m1 m2 : dict) (f : string * string) :
  (forall k, dict_get k m1 = dict_get k m2) ->
  declared_bullet m1 f = declared_bullet m2 f.
Proof.
  intros H. unfold declared_bullet, description_text. now rewrite !H.
Qed.

Lemma declared_block_ext (video : bool) (m1 m2 : dict) :
  (forall k, dict_get k m1 = dict_get k m2) ->
  declared_block video m1 = declared_block video m2.
Proof.
  intros H. unfold declared_block, declared_bullets, none_declared.
  rewrite (flat_map_ext _ _ (fun f => declared_bullet_ext m1 m2 f H)).
  f_equal.
  replace (forallb (fun f => negb (dict_has (fst f) m1))
                   (declared_fields video))
    with (forallb (fun f => negb (dict_has (fst f) m2))
                  (declared_fields video)); [reflexivity|].
  induction (declared_fields video) as [|f fields IH]; simpl; [reflexivity|].
  rewrite IH. unfold dict_has. now rewrite H.
Qed.

Lemma none_declared_bullets (fields : list (string * string)) (meta : dict) :
  none_declared fields meta = true ->
  declared_bullets meta fields =
  flat_map (fun f => if fst f =? "Description"
                     then [quoted_bullet (snd f) "Not found"] else [])
           fields.
Proof.
  unfold none_declared, declared_bullets.
  induction fields as [|[key label] fields IH]; simpl; [reflexivity|].
  intros H. apply andb_true_iff in H as [Hk H]. rewrite (IH H). f_equal.
  apply negb_true_iff in Hk. unfold dict_has in Hk.
  unfold declared_bullet, description_text. simpl.
  destruct (String.eqb_spec key "Description") as [->|Hne].
  - now destruct (dict_get "Description" meta).
  - now destruct (dict_get key meta).
Qed.

(** A read that left none of the listed fields: the whole section. *)
Lemma section_none_declared
    (decode : bytes -> result string) (decode_ignore : bytes -> string)
    (has_pyheif : bool) (f : media_file) :
  is_video_file (name f) || is_image_file (name f) = true ->
  none_declared (declared_fields (is_video_file (name f)))
    (metadata_of decode decode_ignore has_pyheif f) = true ->
  fst (section decode decode_ignore has_pyheif f) =
  ("## " ++ name f ++ LF ++ LF)
    :: ("**Metadata:**" ++ LF)
    :: ("- Description: Not found" ++ LF)
    :: ("- No metadata found" ++ LF)
    :: declared_closing (is_video_file (name f)) (transcript f).
Proof.
  intros Hk Hn. rewrite (section_declared _ _ _ f Hk).
  unfold declared_section, declared_block.
  rewrite Hn, (none_declared_bullets _ _ Hn).
  now destruct (is_video_file (name f)).
Qed.

Lemma description_bullet_written (video : bool) (name : string) (meta : dict)
    (spoken : result string) :
  In ("- Description: " ++ description_text meta ++ LF)
     (declared_section video name meta spoken).
Proof.
  unfold declared_section, declared_block, declared_bullets.
  right. right. apply in_or_app. left. apply in_or_app. left.
  apply in_flat_map. exists ("Description", "Description").
  split; [destruct video; simpl; tauto | now left].
Qed.

Lemma field_bullet_written (video : bool) (name : string) (meta : dict)
    (spoken : result string) (key label : string) (v : value) :
  In (key, label) (declared_fields video) ->
  key <> "Description" ->
  dict_get key meta = Some v ->
  In ("- " ++ label ++ ": " ++ str_value v ++ LF)
     (declared_section video name meta spoken).
Proof.
  intros Hin Hk Hv. unfold declared_section, declared_block, declared_bullets.
  right. right. apply in_or_app. left. apply in_or_app. left.
  apply in_flat_map. exists (key, label). split; [exact Hin|].
  unfold declared_bullet. simpl. apply String.eqb_neq in Hk.
  rewrite Hk, Hv. now left.
Qed.

(** ** The description of a video *)

Lemma py_or_first_nonempty (a b c d : option value) :
  match py_or (py_or (py_or a b) c) d with
  | Some v => if truthy v then v else VStr ""
  | None => VStr ""
  end =
  match first_nonempty [a; b; c; d] with
  | Some v => v
  | None => VStr ""
  end.
Proof.
  destruct a as [va|], b as [vb|], c as [vc|], d as [vd|];
    cbn [first_nonempty]; unfold py_or; rewrite ?truthy_blank;
    repeat match goal with
           | |- context [is_blank ?v] => destruct (is_blank v) eqn:?
           end;
    repeat (cbn [negb]; rewrite ?truthy_blank;
            repeat match goal with
                   | H : is_blank _ = _ |- _ => rewrite H
                   end);
    reflexivity.
Qed.

Lemma first_nonempty_filled (vs : list (option value)) (v : value) :
  first_nonempty vs = Some v -> is_blank v = false.
Proof.
  induction vs as [|[v'|] vs IH]; simpl; [discriminate| |exact IH].
  destruct (is_blank v') eqn:E; [exact IH|]. now intros [= <-].
Qed.

(** C4.  The Description of a video is the first non-empty value among the
    raw tags Description, UserComment, XPComment and Comment, in that order,
    and the empty string when all four are absent or empty.  The section of
    the video then has the line "- Description: " followed by that value,
    or "- Description: Not found" when there is none; whatever the probe
    did, the section of a video has a Description line.  With an empty
    Description, a user comment "hello" and a comment "other", the section
    shows "- Description: hello". *)
Theorem video_description
    (decode : bytes -> result string) (decode_ignore : bytes -> string)
    (has_pyheif : bool) (f : media_file) (stdout : string) :
  is_video_file (name f) = true ->
  probe f = Ok stdout ->
  let raw := parse_lines (splitlines stdout) in
  dict_get "Description" (extract_video_metadata (probe f)) =
    Some (match description_choice raw with
          | Some v => v
          | None => VStr ""
          end)
  /\ In ("- Description: " ++
         match description_choice raw with
         | Some v => str_value v
         | None => "Not found"
         end ++ LF)
        (fst (section decode decode_ignore has_pyheif f))
  /\ (forall g : media_file,
         is_video_file (name g) = true ->
         exists text : string,
           In ("- Description: " ++ text ++ LF)
              (fst (section decode decode_ignore has_pyheif g)))
  /\ fst (section decode decode_ignore has_pyheif
            (Sample.entry "v.mp4" (Ok Sample.described) Sample.unreadable)) =
     [ "## v.mp4" ++ LF ++ LF;
       "**Metadata:**" ++ LF;
       "- Description: hello" ++ LF;
       "- Video Description: other" ++ LF;
       LF ++ "**Transcription:**" ++ LF ++ LF;
       "hello" ++ LF ++ LF ].
Proof.
  intros Hv Hp raw.
  assert (H : dict_get "Description" (extract_video_metadata (probe f)) =
              Some (match description_choice raw with
                    | Some v => v
                    | None => VStr ""
                    end)).
  { rewrite Hp. unfold extract_video_metadata, set_description.
    fold raw. unfold description_choice.
    rewrite dict_get_set_eq. f_equal. apply py_or_first_nonempty. }
  split; [exact H|]. split; [|split].
  - rewrite section_declared by (now rewrite Hv).
    pose proof (description_bullet_written (is_video_file (name f)) (name f)
                  (metadata_of decode decode_ignore has_pyheif f)
                  (transcript f)) as Hl.
    assert (Hm : dict_get "Description"
                   (metadata_of decode decode_ignore has_pyheif f) =
                 Some (match description_choice raw with
                       | Some v => v
                       | None => VStr ""
                       end))
      by (unfold metadata_of; now rewrite Hv).
    unfold description_text in Hl. rewrite Hm in Hl.
    destruct (description_choice raw) as [v|] eqn:E.
    + unfold description_choice in E.
      rewrite (first_nonempty_filled _ _ E) in Hl. exact Hl.
    + exact Hl.
  - intros g Hg. eexists.
    rewrite section_declared by (now rewrite Hg).
    apply description_bullet_written.
  - vm_compute. reflexivity.
Qed.

Lemma video_description_witness :
  In ("- Description: hello" ++ LF)
     (fst (section Sample.decode Sample.decode_ignore true
             (Sample.entry "v.mp4" (Ok Sample.described) Sample.unreadable))).
Proof.
  exact (proj1 (proj2
    (video_description Sample.decode Sample.decode_ignore true
       (Sample.entry "v.mp4" (Ok Sample.described) Sample.unreadable)
       Sample.described eq_refl eq_refl))).
Defined.

(** ** The metadata block *)

(** C5 (as amended).  When the metadata read for a file has none of the
    fields declared for its kind, the metadata block of its section is two
    lines, "- Description: Not found", which is always written, then
    "- No metadata found": the section is the heading, the label, these two
    lines and the closing of the kind. *)
Theorem no_metadata_block
    (decode : bytes -> result string) (decode_ignore : bytes -> string)
    (has_pyheif : bool) (f : media_file) :
  is_video_file (name f) || is_image_file (name f) = true ->
  none_declared (declared_fields (is_video_file (name f)))
    (metadata_of decode decode_ignore has_pyheif f) = true ->
  fst (section decode decode_ignore has_pyheif f) =
  ("## " ++ name f ++ LF ++ LF)
    :: ("**Metadata:**" ++ LF)
    :: ("- Description: Not found" ++ LF)
    :: ("- No metadata found" ++ LF)
    :: (if is_video_file (name f) then
          match transcript f with
          | Ok text =>
              [LF ++ "**Transcription:**" ++ LF ++ LF; text ++ LF ++ LF]
          | Raise _ => []
          end
        else [LF ++ "**Notes:** _(add your notes here)_" ++ LF ++ LF]).
Proof.
  intros Hk Hn. rewrite (section_none_declared _ _ _ f Hk Hn).
  unfold declared_closing. now destruct (is_video_file (name f)).
Qed.

Lemma no_metadata_block_witness :
  fst (section Sample.decode Sample.decode_ignore true
         (Sample.entry "a.png" Sample.no_exiftool Sample.unreadable)) =
  [ "## a.png" ++ LF ++ LF;
    "**Metadata:**" ++ LF;
    "- Description: Not found" ++ LF;
    "- No metadata found" ++ LF;
    LF ++ "**Notes:** _(add your notes here)_" ++ LF ++ LF ].
Proof.
  exact (no_metadata_block Sample.decode Sample.decode_ignore true
           (Sample.entry "a.png" Sample.no_exiftool Sample.unreadable)
           eq_refl eq_refl).
Defined.

(** C5 (as stated) fails.  For a video whose probe cannot be run, the
    reader returns an error field alone, none of the declared fields; the
    block written is not the single line "- No metadata found": the
    Description bullet comes before it. *)
Lemma no_metadata_block_has_description :
  let f := Sample.entry "a.mp4" Sample.no_exiftool Sample.unreadable in
  let written := fst (section Sample.decode Sample.decode_ignore true f) in
  metadata_of Sample.decode Sample.decode_ignore true f =
    [("error", VStr "[Errno 2] No such file or directory: 'exiftool'")]
  /\ none_declared (declared_fields true)
       (metadata_of Sample.decode Sample.decode_ignore true f) = true
  /\ written =
     [ "## a.mp4" ++ LF ++ LF;
       "**Metadata:**" ++ LF;
       "- Description: Not found" ++ LF;
       "- No metadata found" ++ LF;
       LF ++ "**Transcription:**" ++ LF ++ LF;
       "hello" ++ LF ++ LF ]
  /\ written <>
     [ "## a.mp4" ++ LF ++ LF;
       "**Metadata:**" ++ LF;
       "- No metadata found" ++ LF;
       LF ++ "**Transcription:**" ++ LF ++ LF;
       "hello" ++ LF ++ LF ].
Proof.
  split; [vm_compute; reflexivity|]. split; [vm_compute; reflexivity|].
  split; [vm_compute; reflexivity | vm_compute; discriminate].
Qed.

(** C7.  The bullets of a section follow the declared field list of the
    kind of the file, Creation Date first and Image Height last, whatever
    the order in which the metadata holds its keys: the section is the
    heading, the label, the bullets of the declared fields in declared
    order (a field that is absent writes none, except Description), the
    "No metadata found" line when none is present, and the closing; any
    dictionary that answers every lookup as the metadata does gives the
    same section.  A probe that prints Model, Make, Duration and Creation
    Date in that order gives the bullets Creation Date, Description, Video
    Length, Make, Model; a photo with all its fields gives the ten image
    bullets from Creation Date to Image Height. *)
Theorem bullets_follow_field_list
    (decode : bytes -> result string) (decode_ignore : bytes -> string)
    (has_pyheif : bool) (f : media_file) (other : dict) :
  is_video_file (name f) || is_image_file (name f) = true ->
  (forall k, dict_get k other =
             dict_get k (metadata_of decode decode_ignore has_pyheif f)) ->
  fst (section decode decode_ignore has_pyheif f) =
    (quoted_heading (name f) :: quoted_metadata_label ::
     declared_bullets other (declared_fields (is_video_file (name f))) ++
     (if none_declared (declared_fields (is_video_file (name f))) other
      then [quoted_no_metadata] else []) ++
     declared_closing (is_video_file (name f)) (transcript f))%list
  /\ fst (section decode decode_ignore has_pyheif
            (Sample.entry "v.mp4" (Ok Sample.shuffled) Sample.unreadable)) =
     [ "## v.mp4" ++ LF ++ LF;
       "**Metadata:**" ++ LF;
       "- Creation Date: 2020:01:01 10:00:00" ++ LF;
       "- Description: Not found" ++ LF;
       "- Video Length: 0:01:05" ++ LF;
       "- Make: Canon" ++ LF;
       "- Model: X100" ++ LF;
       LF ++ "**Transcription:**" ++ LF ++ LF;
       "hello" ++ LF ++ LF ]
  /\ fst (section Sample.decode Sample.decode_ignore true
            (Sample.entry "b.jpg" Sample.no_exiftool
               (Sample.photo
                  (Ok {| DateTimeOriginal := Some "2021:05:04 10:11:12";
                         GPS := Sample.gps_no_refs;
                         Make := Some "Canon"; Model := Some "X100";
                         ImageDescription := Some "Harbour" |})))) =
     [ "## b.jpg" ++ LF ++ LF;
       "**Metadata:**" ++ LF;
       "- Creation Date: 2021:05:04 10:11:12" ++ LF;
       "- Description: Harbour" ++ LF;
       "- GPS: 1.500000, 2.250000" ++ LF;
       "- Make: Canon" ++ LF;
       "- Model: X100" ++ LF;
       "- MIME Type: image/jpeg" ++ LF;
       "- File Name: b.jpg" ++ LF;
       "- File Size: 200 KB" ++ LF;
       "- Image Width: 640" ++ LF;
       "- Image Height: 480" ++ LF;
       LF ++ "**Notes:** _(add your notes here)_" ++ LF ++ LF ].
Proof.
  intros Hk Hsame. split; [|split; vm_compute; reflexivity].
  rewrite (section_declared _ _ _ f Hk). unfold declared_section.
  rewrite <- (declared_block_ext _ other _ Hsame).
  unfold declared_block. now rewrite <- app_assoc.
Qed.

Lemma bullets_follow_field_list_witness :
  let f := Sample.entry "v.mp4" (Ok Sample.shuffled) Sample.unreadable in
  let other :=
    [ ("Creation Date", VStr "2020:01:01 10:00:00");
      ("Description", VStr ""); ("Duration", VStr "0:01:05");
      ("Make", VStr "Canon"); ("Model", VStr "X100") ] in
  fst (section Sample.decode Sample.decode_ignore true f) =
    (quoted_heading (name f) :: quoted_metadata_label ::
     declared_bullets other (declared_fields (is_video_file (name f))) ++
     (if none_declared (declared_fields (is_video_file (name f))) other
      then [quoted_no_metadata] else []) ++
     declared_closing (is_video_file (name f)) (transcript f))%list.
Proof.
  intros f other.
  refine (proj1 (bullets_follow_field_list Sample.decode Sample.decode_ignore
                   true f other eq_refl _)).
  intros k.
  change (metadata_of Sample.decode Sample.decode_ignore true f)
    with [ ("Model", VStr "X100"); ("Make", VStr "Canon");
           ("Duration", VStr "0:01:05");
           ("Creation Date", VStr "2020:01:01 10:00:00");
           ("Description", VStr "") ].
  unfold other. cbn [dict_get].
  destruct ("Creation Date" =? k) eqn:E1, ("Description" =? k) eqn:E2,
           ("Duration" =? k) eqn:E3, ("Make" =? k) eqn:E4,
           ("Model" =? k) eqn:E5;
    try reflexivity;
    repeat match goal with
           | H : (_ =? k) = true |- _ => apply String.eqb_eq in H
           end;
    congruence.
Defined.

(** ** Empty values *)

(** C8 (as amended).  In a video, a probe line with nothing after the colon
    stores its field as the empty string, and the section of the video then
    has the bullet of that field with an empty value, such as "- Make: ".
    In an image, an EXIF tag (capture time, Make, Model) whose value is
    empty gives the same result as a missing tag. *)
Theorem empty_tag_handling
    (decode : bytes -> result string) (decode_ignore : bytes -> string)
    (has_pyheif : bool) (f : media_file) (stdout key label : string) :
  is_video_file (name f) = true ->
  probe f = Ok stdout ->
  printed_value key (splitlines stdout) = Some "" ->
  In (key, label) (declared_fields true) ->
  key <> "Description" ->
  dict_get key (extract_video_metadata (probe f)) = Some (VStr "")
  /\ In ("- " ++ label ++ ": " ++ LF)
        (fst (section decode decode_ignore has_pyheif f))
  /\ (forall (name : string) (w h : Z) (m : option string)
             (data : option bytes) (heif : result (Z * Z)) (size : result Z)
             (dt make model desc : option bytes) (g : gps_ifd),
         let read e :=
           extract_image_metadata decode decode_ignore has_pyheif name
             {| image_open :=
                  Ok {| width := w; height := h; mime := m;
                        info_exif := data; piexif_load := Ok e |};
                pyheif_size := heif; st_size := size |} in
         let tags dt make model :=
           {| DateTimeOriginal := dt; GPS := g; Make := make;
              Model := model; ImageDescription := desc |} in
         read (tags (Some "") make model) = read (tags None make model)
         /\ read (tags dt (Some "") model) = read (tags dt None model)
         /\ read (tags dt make (Some "")) = read (tags dt make None)).
Proof.
  intros Hv Hp Hprinted Hin Hk.
  assert (H : dict_get key (extract_video_metadata (probe f)) =
              Some (VStr "")).
  { rewrite Hp. unfold extract_video_metadata.
    rewrite dict_get_set_description by exact Hk.
    now rewrite dict_get_parse_lines, Hprinted. }
  split; [exact H|]. split.
  - rewrite section_declared by (now rewrite Hv).
    rewrite Hv.
    apply (field_bullet_written true (name f) _ (transcript f) key label
             (VStr "") Hin Hk).
    unfold metadata_of. now rewrite Hv.
  - intros. repeat split; reflexivity.
Qed.

Lemma empty_tag_handling_witness :
  In ("- Make: " ++ LF)
     (fst (section Sample.decode Sample.decode_ignore true
             (Sample.entry "v.mp4" (Ok Sample.empty_make) Sample.unreadable))).
Proof.
  refine (proj1 (proj2
    (empty_tag_handling Sample.decode Sample.decode_ignore true
       (Sample.entry "v.mp4" (Ok Sample.empty_make) Sample.unreadable)
       Sample.empty_make "Make" "Make" eq_refl eq_refl eq_refl _ _))).
  - simpl. tauto.
  - discriminate.
Defined.

(** C8 (as stated) fails for videos.  A Make line with an empty value is
    stored, and the section shows "- Make: "; a probe answer without Make
    gives a section without that line. *)
Lemma empty_video_tag_is_rendered :
  let video out := Sample.entry "v.mp4" (Ok out) Sample.unreadable in
  let written out :=
    fst (section Sample.decode Sample.decode_ignore true (video out)) in
  extract_video_metadata (Ok Sample.empty_make) =
    [("Make", VStr ""); ("Description", VStr "")]
  /\ written Sample.empty_make =
     [ "## v.mp4" ++ LF ++ LF;
       "**Metadata:**" ++ LF;
       "- Description: Not found" ++ LF;
       "- Make: " ++ LF;
       LF ++ "**Transcription:**" ++ LF ++ LF;
       "hello" ++ LF ++ LF ]
  /\ written "" =
     [ "## v.mp4" ++ LF ++ LF;
       "**Metadata:**" ++ LF;
       "- Description: Not found" ++ LF;
       LF ++ "**Transcription:**" ++ LF ++ LF;
       "hello" ++ LF ++ LF ].
Proof. repeat split; vm_compute; reflexivity. Qed.

(** ** Failed reads *)




(** ** HEIC files and the closing line of a video block *)

(** X7.  A HEIC file is an image for the run, and its reader stores none of
    the listed fields: only Image Size when pyheif reads the file, only an
    error otherwise.  Its section is therefore always the heading, the
    label, "- Description: Not found", "- No metadata found" and the notes
    line. *)
Theorem heic_has_no_listed_field
    (decode : bytes -> result string) (decode_ignore : bytes -> string)
    (has_pyheif : bool) (f : media_file) :
  (lower (suffix (name f)) =? ".heic") = true ->
  let meta :=
    extract_image_metadata decode decode_ignore has_pyheif
      (name f) (image f) in
  is_image_file (name f) = true
  /\ is_video_file (name f) = false
  /\ meta =
     (if has_pyheif then
        match pyheif_size (image f) with
        | Ok size => [("Image Size", image_size (fst size) (snd size))]
        | Raise e => [("error", VStr (str_exn e))]
        end
      else
        [("error",
          VStr "pyheif not installed; cannot extract HEIC metadata.")])
  /\ fst (section decode decode_ignore has_pyheif f) =
     [ "## " ++ name f ++ LF ++ LF;
       "**Metadata:**" ++ LF;
       "- Description: Not found" ++ LF;
       "- No metadata found" ++ LF;
       LF ++ "**Notes:** _(add your notes here)_" ++ LF ++ LF ].
Proof.
  intros Hs meta.
  assert (Hi : is_image_file (name f) = true).
  { unfold is_image_file. apply String.eqb_eq in Hs. now rewrite Hs. }
  assert (Hv : is_video_file (name f) = false).
  { pose proof (video_not_image (name f)) as Hd. rewrite Hi in Hd.
    now rewrite andb_true_r in Hd. }
  assert (Hm : meta =
     (if has_pyheif then
        match pyheif_size (image f) with
        | Ok size => [("Image Size", image_size (fst size) (snd size))]
        | Raise e => [("error", VStr (str_exn e))]
        end
      else
        [("error",
          VStr "pyheif not installed; cannot extract HEIC metadata.")])).
  { unfold meta, extract_image_metadata, image_try. rewrite Hs.
    destruct has_pyheif; [|reflexivity].
    unfold bind, lift. now destruct (pyheif_size (image f)). }
  split; [exact Hi|]. split; [exact Hv|]. split; [exact Hm|].
  rewrite section_none_declared.
  - now rewrite Hv.
  - now rewrite Hv, Hi.
  - unfold metadata_of. rewrite Hv. fold meta. rewrite Hm.
    destruct has_pyheif; [|reflexivity].
    now destruct (pyheif_size (image f)).
Qed.

Lemma heic_has_no_listed_field_witness :
  fst (section Sample.decode Sample.decode_ignore false
         (Sample.entry "IMG_1.HEIC" Sample.no_exiftool Sample.unreadable)) =
  [ "## IMG_1.HEIC" ++ LF ++ LF;
    "**Metadata:**" ++ LF;
    "- Description: Not found" ++ LF;
    "- No metadata found" ++ LF;
    LF ++ "**Notes:** _(add your notes here)_" ++ LF ++ LF ].
Proof.
  exact (proj2 (proj2 (proj2
    (heic_has_no_listed_field Sample.decode Sample.decode_ignore false
       (Sample.entry "IMG_1.HEIC" Sample.no_exiftool Sample.unreadable)
       eq_refl)))).
Defined.

(** X10.  The section of a video has the line "- No metadata found", after
    its bullets, exactly when the probe could not be invoked: whenever the
    probe ran, even with an empty answer, the reader stores a Description,
    and the block is the bullets alone.  A probe that printed nothing gives
    the heading, the label, "- Description: Not found" and the
    transcription. *)
Theorem video_block_trailer
    (decode : bytes -> result string) (decode_ignore : bytes -> string)
    (has_pyheif : bool) (f : media_file) :
  is_video_file (name f) = true ->
  let meta := extract_video_metadata (probe f) in
  fst (section decode decode_ignore has_pyheif f) =
    (quoted_heading (name f) :: quoted_metadata_label ::
     declared_bullets meta (declared_fields true) ++
     match probe f with
     | Ok _ => []
     | Raise _ => [quoted_no_metadata]
     end ++
     declared_closing true (transcript f))%list
  /\ dict_has "Description" meta =
     match probe f with
     | Ok _ => true
     | Raise _ => false
     end
  /\ quoted_no_metadata = "- No metadata found" ++ LF
  /\ fst (section decode decode_ignore has_pyheif
            (Sample.entry "v.mp4" (Ok "") Sample.unreadable)) =
     [ "## v.mp4" ++ LF ++ LF;
       "**Metadata:**" ++ LF;
       "- Description: Not found" ++ LF;
       LF ++ "**Transcription:**" ++ LF ++ LF;
       "hello" ++ LF ++ LF ].
Proof.
  intros Hv meta.
  assert (Hd : dict_has "Description" meta =
               match probe f with
               | Ok _ => true
               | Raise _ => false
               end).
  { unfold meta. destruct (probe f) as [stdout|e]; [|reflexivity].
    unfold extract_video_metadata, set_description, dict_has.
    now rewrite dict_get_set_eq. }
  split; [|split; [exact Hd|split; [reflexivity|vm_compute; reflexivity]]].
  rewrite section_declared by (now rewrite Hv).
  unfold declared_section, declared_block, metadata_of. rewrite Hv.
  fold meta. rewrite <- app_assoc. do 3 f_equal.
  destruct (probe f) as [stdout|e]; [|reflexivity].
  unfold none_declared. simpl forallb. rewrite Hd. simpl.
  now rewrite andb_false_r.
Qed.

Lemma video_block_trailer_witness :
  dict_has "Description" (extract_video_metadata (Ok "")) = true.
Proof.
  exact (proj1 (proj2
    (video_block_trailer Sample.decode Sample.decode_ignore true
       (Sample.entry "v.mp4" (Ok "") Sample.unreadable) eq_refl))).
Defined.
